(** * AmpliGraph [ampligraph/utils/model_utils.py]: model persistence and
    TensorBoard export, as a shallow embedding.

    The Python module is I/O glue: it builds a dictionary from a model,
    pickles it, reads it back, and writes label and embedding files.  The
    embedding keeps that shape.  Python values are an inductive universe
    [PyVal]; exceptions are values of [Exn]; every function that touches
    the disk is a state transformer over a file system [FS] which returns
    the final file system also when it raises, so that what a failed call
    left behind can be stated. *)

From Stdlib Require Import ZArith PrimFloat Ascii String.
From stdpp Require Import base gmap strings list fin_maps.

Set Warnings "-register-all".
Local Open Scope string_scope.

(** ** Python values *)

(** Exceptions raised by the module itself or by the builtins it calls. *)
Inductive Exn : Type :=
| ValueError (msg : string)
| Exception_ (msg : string)
| TypeError (msg : string)
| KeyError (key : string)
| IndexError (msg : string)
| AttributeError (name : string)
| FileNotFoundError (path : string)
| FileExistsError (path : string)
| IsADirectoryError (path : string)
| NotADirectoryError (path : string)
| EOFError (msg : string)
| UnpicklingError (msg : string).

Inductive result (A : Type) : Type :=
| Ok (a : A)
| Err (e : Exn).
Arguments Ok {A} a.
Arguments Err {A} e.

(** A [numpy.ndarray] of floats: its shape and its elements in row-major
    order. *)
Record NdArray : Type := mkArray {
  shape : list nat;
  data : list float
}.

(** The plain-data objects the module stores in and reads from a pickle
    file, and the attributes of a model.  A [dict] keeps insertion order
    and is keyed by [str], as the records of this module are; its keys are
    meant to be distinct. *)
Inductive PyVal : Type :=
| PNone
| PBool (b : bool)
| PInt (z : Z)
| PFloat (f : float)
| PStr (s : string)
| PList (items : list PyVal)
| PDict (entries : list (string * PyVal))
| PArray (a : NdArray).

Abbreviation Dict := (list (string * PyVal)).

Definition array_size (a : NdArray) : nat := fold_right Nat.mul 1 (shape a).

(** [bool(v)], as evaluated by [if v:] and [not v].  A numpy array with
    more than one element has no truth value. *)
Definition truth (v : PyVal) : result bool :=
  match v with
  | PNone => Ok false
  | PBool b => Ok b
  | PInt z => Ok (negb (z =? 0)%Z)
  | PFloat f => Ok (negb (f =? 0)%float)
  | PStr s => Ok (negb (String.eqb s ""))
  | PList items => Ok (match items with [] => false | _ => true end)
  | PDict entries => Ok (match entries with [] => false | _ => true end)
  | PArray a =>
      match array_size a, data a with
      | 0, _ => Ok false
      | 1, x :: _ => Ok (negb (x =? 0)%float)
      | _, _ => Err (ValueError "The truth value of an array with more than one element is ambiguous. Use a.any() or a.all()")
      end
  end.

(** [len(v)]. *)
Definition py_len (v : PyVal) : result nat :=
  match v with
  | PStr s => Ok (String.length s)
  | PList items => Ok (length items)
  | PDict entries => Ok (length entries)
  | PArray a =>
      match shape a with
      | [] => Err (TypeError "len() of unsized object")
      | n :: _ => Ok n
      end
  | PNone => Err (TypeError "object of type 'NoneType' has no len()")
  | PBool _ => Err (TypeError "object of type 'bool' has no len()")
  | PInt _ => Err (TypeError "object of type 'int' has no len()")
  | PFloat _ => Err (TypeError "object of type 'float' has no len()")
  end.

(** [d[key]] on an insertion-ordered dictionary. *)
Fixpoint dict_get (d : Dict) (key : string) : option PyVal :=
  match d with
  | [] => None
  | (k, v) :: rest => if String.eqb k key then Some v else dict_get rest key
  end.

(** [d[key] = v]: replace in place, or append. *)
Fixpoint dict_set (d : Dict) (key : string) (v : PyVal) : Dict :=
  match d with
  | [] => [(key, v)]
  | (k, w) :: rest =>
      if String.eqb k key then (k, v) :: rest else (k, w) :: dict_set rest key v
  end.

(** [v[key]] for a string key. *)
Definition getitem_str (v : PyVal) (key : string) : result PyVal :=
  match v with
  | PDict entries =>
      match dict_get entries key with
      | Some x => Ok x
      | None => Err (KeyError key)
      end
  | PStr _ => Err (TypeError "string indices must be integers")
  | PList _ => Err (TypeError "list indices must be integers or slices, not str")
  | PArray _ => Err (IndexError "only integers, slices (`:`), ellipsis (`...`), numpy.newaxis (`None`) and integer or boolean arrays are valid indices")
  | PNone => Err (TypeError "'NoneType' object is not subscriptable")
  | PBool _ => Err (TypeError "'bool' object is not subscriptable")
  | PInt _ => Err (TypeError "'int' object is not subscriptable")
  | PFloat _ => Err (TypeError "'float' object is not subscriptable")
  end.

(** [v[0]]. *)
Definition getitem_0 (v : PyVal) : result PyVal :=
  match v with
  | PList items =>
      match items with
      | x :: _ => Ok x
      | [] => Err (IndexError "list index out of range")
      end
  | PStr s =>
      match s with
      | String c _ => Ok (PStr (String c EmptyString))
      | EmptyString => Err (IndexError "string index out of range")
      end
  | PDict _ => Err (KeyError "0")
  | PArray a =>
      match shape a with
      | [] => Err (IndexError "too many indices for array")
      | 0 :: _ => Err (IndexError "index 0 is out of bounds for axis 0 with size 0")
      | S _ :: inner =>
          Ok (PArray (mkArray inner (take (fold_right Nat.mul 1 inner) (data a))))
      end
  | PNone => Err (TypeError "'NoneType' object is not subscriptable")
  | PBool _ => Err (TypeError "'bool' object is not subscriptable")
  | PInt _ => Err (TypeError "'int' object is not subscriptable")
  | PFloat _ => Err (TypeError "'float' object is not subscriptable")
  end.

(** ** Paths and the file system *)

Definition SEP : ascii := "/"%char.
Definition TAB : string := String "009"%char "".
Definition LF : string := String "010"%char "".
Definition QUOTE : ascii := "034"%char.

Fixpoint contains_char (c : ascii) (s : string) : bool :=
  match s with
  | EmptyString => false
  | String x rest => Ascii.eqb x c || contains_char c rest
  end.

Fixpoint ends_with (suffix s : string) : bool :=
  String.eqb s suffix ||
  match s with
  | EmptyString => false
  | String _ rest => ends_with suffix rest
  end.

Definition starts_with_char (c : ascii) (s : string) : bool :=
  match s with
  | String x _ => Ascii.eqb x c
  | EmptyString => false
  end.

(** [posixpath.join(a, b)]. *)
Definition os_path_join (a b : string) : string :=
  if starts_with_char SEP b then b
  else if String.eqb a "" || ends_with (String SEP "") a then a ++ b
  else a ++ String SEP "" ++ b.

(** [s.rstrip('/')]. *)
Fixpoint rstrip_sep (s : string) : string :=
  match s with
  | EmptyString => EmptyString
  | String c rest =>
      match rstrip_sep rest with
      | EmptyString => if Ascii.eqb c SEP then EmptyString else String c EmptyString
      | r => String c r
      end
  end.

(** [p[:p.rfind('/') + 1]]. *)
Fixpoint upto_last_sep (p : string) : string :=
  match p with
  | EmptyString => EmptyString
  | String c rest =>
      if contains_char SEP rest then String c (upto_last_sep rest)
      else if Ascii.eqb c SEP then String c EmptyString
      else EmptyString
  end.

(** [posixpath.dirname(p)]: the head up to the last separator, without
    its trailing separators unless it consists of separators only. *)
Definition os_path_dirname (p : string) : string :=
  let head := upto_last_sep p in
  match rstrip_sep head with
  | EmptyString => head
  | stripped => stripped
  end.

(** What a file holds.  [pickle.dump] and [pickle.load] are taken as
    inverse to each other on [PyVal], so a pickle file is represented by
    the object dumped into it; [Rendered] is content produced by a
    third-party writer (numpy, TensorFlow) from a payload. *)
Inductive FileData : Type :=
| Text (s : string)
| Pickled (v : PyVal)
| Rendered (format : string) (payload : PyVal).

Inductive Node : Type :=
| Dir
| File (content : FileData).

(** The file system maps a path, as the program spells it, to what is
    there.  Paths are compared literally (no symbolic links, no [.] or
    [..] components); the empty directory name stands for the working
    directory, which always exists. *)
Abbreviation FS := (gmap string Node).

(** A computation that may raise and may change the file system.  The
    final file system is returned in either case. *)
Definition IO (A : Type) : Type := FS -> result A * FS.

Definition ret {A} (a : A) : IO A := fun fs => (Ok a, fs).
Definition raise {A} (e : Exn) : IO A := fun fs => (Err e, fs).
Definition bind {A B} (m : IO A) (k : A -> IO B) : IO B :=
  fun fs =>
    match m fs with
    | (Ok a, fs') => k a fs'
    | (Err e, fs') => (Err e, fs')
    end.
Definition lift {A} (r : result A) : IO A := fun fs => (r, fs).

Notation "'let*' x ':=' m 'in' k" := (bind m (fun x => k))
  (at level 10, x name, m at level 100, k at level 200).
Notation "m ';;' k" := (bind m (fun _ => k))
  (at level 100, k at level 200, right associativity).

(** [os.path.exists(p)]. *)
Definition os_path_exists (p : string) : IO bool :=
  fun fs =>
    (Ok (negb (String.eqb p "") && bool_decide (is_Some (fs !! p))), fs).

(** The directory that must exist for [path] to be created. *)
Definition parent_check (fs : FS) (path : string) : result unit :=
  if String.eqb path "" then Err (FileNotFoundError path)
  else
    let d := os_path_dirname path in
    if String.eqb d "" then Ok tt
    else
      match fs !! d with
      | Some Dir => Ok tt
      | Some (File _) => Err (NotADirectoryError path)
      | None => Err (FileNotFoundError path)
      end.

(** [os.mkdir(p)]. *)
Definition os_mkdir (p : string) : IO unit :=
  fun fs =>
    match parent_check fs p with
    | Err e => (Err e, fs)
    | Ok _ =>
        match fs !! p with
        | Some _ => (Err (FileExistsError p), fs)
        | None => (Ok tt, <[p := Dir]> fs)
        end
    end.

(** [with open(path, 'w') as f: ...] where the body writes [content] and
    cannot raise: the file is created or truncated and holds [content]
    when the block is left.  Opening and writing are one step here, so a
    file left empty or half written by a body that fails is outside the
    model, and so is a path that ends in a separator. *)
Definition open_write (path : string) (content : FileData) : IO unit :=
  fun fs =>
    match parent_check fs path with
    | Err e => (Err e, fs)
    | Ok _ =>
        match fs !! path with
        | Some Dir => (Err (IsADirectoryError path), fs)
        | _ => (Ok tt, <[path := File content]> fs)
        end
    end.

(** [with open(path, 'rb') as f: ...]: the content read. *)
Definition open_read (path : string) : IO FileData :=
  fun fs =>
    match fs !! path with
    | Some (File content) => (Ok content, fs)
    | Some Dir => (Err (IsADirectoryError path), fs)
    | None => (Err (FileNotFoundError path), fs)
    end.

(** [pickle.load] on what was read, as the decoding of what [pickle.dump]
    wrote: a file written as text is taken not to be a pickle, and a
    pickle that runs code when it is loaded is outside the model. *)
Definition pickle_load (content : FileData) : result PyVal :=
  match content with
  | Pickled v => Ok v
  | Text EmptyString => Err (EOFError "Ran out of input")
  | Text _ => Err (UnpicklingError "invalid load key")
  | Rendered _ _ => Err (UnpicklingError "invalid load key")
  end.

(** [glob.glob("*.model.pkl")]: the entries of the working directory whose
    name ends in [.model.pkl] and does not start with a dot.  Python
    returns them in directory order; the order of the map stands for it. *)
Definition is_default_model_name (name : string) : bool :=
  negb (contains_char SEP name)
  && negb (starts_with_char "."%char name)
  && ends_with ".model.pkl" name.

Definition matching_entries (fs : FS) : list string :=
  filter (fun name => is_default_model_name name = true) (map fst (map_to_list fs)).

Definition glob_default_models : IO (list string) :=
  fun fs => (Ok (matching_entries fs), fs).

(** ** Models *)

(** The classes of [ampligraph.latent_features.models] a model may be an
    instance of, as the docstrings of this module list them. *)
Inductive ModelClass : Type := TransE | DistMult | ComplEx | HolE.

(** [cls.__name__]. *)
Definition class_name (c : ModelClass) : string :=
  match c with
  | TransE => "TransE"
  | DistMult => "DistMult"
  | ComplEx => "ComplEx"
  | HolE => "HolE"
  end.

(** The attributes of a model this module reads and writes.  [all_params]
    is set by the constructor from its keyword arguments; the others are
    assigned from outside without a check, so they are plain values. *)
Record Model : Type := mkModel {
  cls : ModelClass;
  all_params : Dict;
  is_fitted : PyVal;
  ent_to_idx : PyVal;
  rel_to_idx : PyVal;
  trained_model_params : PyVal
}.

(** The methods of the model classes that this module calls.  They are
    defined in [ampligraph/latent_features/models.py]; here they are taken
    as given. *)
Record ModelsModule : Type := mkModelsModule {
  (** the class called with the hyperparameters as keyword arguments *)
  construct : ModelClass -> Dict -> result Model;
  (** [model.get_embedding_model_params(obj)]: the dictionary after the
      model has stored its parameters in it *)
  get_embedding_model_params : Model -> Dict -> Dict;
  (** [model.restore_model_params(restored_obj)]: the model afterwards *)
  restore_model_params : Model -> PyVal -> result Model;
  (** [model.predict(X)] *)
  predict : Model -> PyVal -> result PyVal
}.

(** What the module relies on from Python, numpy and TensorFlow without
    fixing it: [str] of an object that is not a string, [np.savetxt], and
    the checkpoint and projector files TensorFlow writes. *)
Record Runtime : Type := mkRuntime {
  py_str : PyVal -> string;
  (** [np.savetxt(fname, X, delimiter=...)] *)
  np_savetxt : string -> PyVal -> string -> IO unit;
  (** lines 237-256: [tf.Variable], [Saver.save(sess, checkpoint_path)],
      [projector.visualize_embeddings(FileWriter(loc), config)] *)
  tf_save_projector : PyVal -> string -> string -> IO unit
}.

(** [getattr(module, name)] on [ampligraph.latent_features.models].  Only
    the four classes named in the docstrings are resolved; whatever else
    the module holds (other classes, imported modules) is not modelled and
    counts as missing. *)
Definition models_getattr (name : PyVal) : result ModelClass :=
  match name with
  | PStr s =>
      if String.eqb s "TransE" then Ok TransE
      else if String.eqb s "DistMult" then Ok DistMult
      else if String.eqb s "ComplEx" then Ok ComplEx
      else if String.eqb s "HolE" then Ok HolE
      else Err (AttributeError s)
  | _ => Err (TypeError "getattr(): attribute name must be string")
  end.

(** A call of the class with unpacked keyword arguments: what is unpacked
    must be a mapping. *)
Definition call_with_kwargs (mm : ModelsModule) (class_ : ModelClass)
    (kwargs : PyVal) : result Model :=
  match kwargs with
  | PDict entries => construct mm class_ entries
  | _ => Err (TypeError "argument after ** must be a mapping")
  end.

(** [list(d.keys())]. *)
Definition keys_list (d : PyVal) : result PyVal :=
  match d with
  | PDict entries => Ok (PList (map (fun kv => PStr (fst kv)) entries))
  | _ => Err (AttributeError "keys")
  end.

(** ** Labels *)

(** A [pandas.DataFrame] whose column labels and cells are strings. *)
Record DataFrame : Type := mkFrame {
  columns : list string;
  rows : list (list string)
}.

(** The [labels] and [data] arguments: a plain value ([None], a list, or
    anything else a caller passes) or a data frame. *)
Inductive Labels : Type :=
| LVal (v : PyVal)
| LFrame (df : DataFrame).

(** [len(labels)]; for a data frame, the number of rows. *)
Definition labels_len (l : Labels) : result nat :=
  match l with
  | LVal v => py_len v
  | LFrame df => Ok (length (rows df))
  end.

(** ['%s' % row]: a string is inserted as it is, anything else through
    [str]. *)
Definition format_s (rt : Runtime) (row : PyVal) : string :=
  match row with
  | PStr s => s
  | other => py_str rt other
  end.

(** *** [DataFrame.to_csv(path, sep='\t', index=False)]

    With the defaults of pandas: the header is written, fields are quoted
    only when they contain the separator, the quote character or the line
    terminator, a quote inside a quoted field is doubled, and a record
    that would otherwise be empty (one empty field) is written as a pair
    of quotes. *)

Definition csv_special (c : ascii) : bool :=
  Ascii.eqb c "009"%char || Ascii.eqb c QUOTE || Ascii.eqb c "010"%char.

Fixpoint csv_needs_quotes (field : string) : bool :=
  match field with
  | EmptyString => false
  | String c rest => csv_special c || csv_needs_quotes rest
  end.

Fixpoint csv_double_quotes (field : string) : string :=
  match field with
  | EmptyString => EmptyString
  | String c rest =>
      if Ascii.eqb c QUOTE then String c (String c (csv_double_quotes rest))
      else String c (csv_double_quotes rest)
  end.

Definition csv_field (field : string) : string :=
  if csv_needs_quotes field
  then String QUOTE (csv_double_quotes field ++ String QUOTE EmptyString)
  else field.

Definition csv_record (fields : list string) : string :=
  let body := String.concat TAB (map csv_field fields) in
  match fields, body with
  | _ :: _, EmptyString => String QUOTE (String QUOTE EmptyString) ++ LF
  | _, _ => body ++ LF
  end.

Definition to_csv_text (df : DataFrame) : string :=
  csv_record (columns df) ++ String.concat "" (map csv_record (rows df)).

Definition to_csv (df : DataFrame) (path : string) : IO unit :=
  open_write path (Text (to_csv_text df)).

(** ** The functions of [model_utils.py]

    Calls of [logger] write no file and are left out. *)

Section Functions.

Variable mm : ModelsModule.
Variable rt : Runtime.

(** [DEFAULT_MODEL_NAMES.format(stamp)] *)
Definition DEFAULT_MODEL_NAMES (stamp : string) : string := stamp ++ ".model.pkl".

(** [save_model(model, model_name_path)].  [stamp] is the value of
    [strftime("%Y_%m_%d-%H_%M_%S", gmtime())] at the time of the call. *)
Definition save_model (stamp : string) (model : Model)
    (model_name_path : option string) : IO unit :=
  let obj : Dict :=
    [ ("class_name", PStr (class_name (cls model)));
      ("hyperparams", PDict (all_params model));
      ("is_fitted", is_fitted model);
      ("ent_to_idx", ent_to_idx model);
      ("rel_to_idx", rel_to_idx model) ] in
  let obj := get_embedding_model_params mm model obj in
  let model_name_path :=
    match model_name_path with
    | None => DEFAULT_MODEL_NAMES stamp
    | Some p => p
    end in
  open_write model_name_path (Pickled (PDict obj)).

Definition NO_DEFAULT_MODEL : string :=
  "No default model found. Please specify                              model_name_path...".

(** [restore_model(model_name_path)]; [None] is returned as [None]. *)
Definition restore_model (model_name_path : option string) : IO (option Model) :=
  let* model_name_path :=
    match model_name_path with
    | None =>
        let* default_models := glob_default_models in
        if Nat.eqb (length default_models) 0
        then raise (Exception_ NO_DEFAULT_MODEL)
        else ret (nth (length default_models - 1) default_models "")
    | Some p => ret p
    end in
  let* content := open_read model_name_path in
  let* restored_obj := lift (pickle_load content) in
  let* truthy := lift (truth restored_obj) in
  if truthy then
    let* name := lift (getitem_str restored_obj "class_name") in
    let* class_ := lift (models_getattr name) in
    let* hyperparams := lift (getitem_str restored_obj "hyperparams") in
    let* model := lift (call_with_kwargs mm class_ hyperparams) in
    let* fitted := lift (getitem_str restored_obj "is_fitted") in
    let model := mkModel (cls model) (all_params model) fitted
                   (ent_to_idx model) (rel_to_idx model)
                   (trained_model_params model) in
    let* ents := lift (getitem_str restored_obj "ent_to_idx") in
    let model := mkModel (cls model) (all_params model) (is_fitted model)
                   ents (rel_to_idx model) (trained_model_params model) in
    let* rels := lift (getitem_str restored_obj "rel_to_idx") in
    let model := mkModel (cls model) (all_params model) (is_fitted model)
                   (ent_to_idx model) rels (trained_model_params model) in
    let* model := lift (restore_model_params mm model restored_obj) in
    ret (Some model)
  else ret None.

(** [write_metadata_tsv(loc, data)].  The loop over the rows of a list
    threads the text written so far. *)
Definition write_metadata_tsv (loc : string) (data : Labels) : IO unit :=
  let metadata_path := os_path_join loc "metadata.tsv" in
  match data with
  | LVal (PList rows) =>
      open_write metadata_path
        (Text (fold_left (fun written row => written ++ format_s rt row ++ LF)
                 rows ""))
  | LFrame df => to_csv df metadata_path
  | LVal _ => ret tt
  end.

Definition NOT_FITTED : string := "Cannot write embeddings if model is not fitted.".
Definition LABEL_ROWS : string := "Label data rows must equal number of embeddings.".

(** Lines 216-223 and 292-298, the same in both export functions: the
    labels to write, or the error of the length check. *)
Definition resolve_labels (model : Model) (labels : Labels) : IO Labels :=
  match labels with
  | LVal PNone =>
      let* keys := lift (keys_list (ent_to_idx model)) in
      ret (LVal keys)
  | _ =>
      let* n := lift (labels_len labels) in
      let* k := lift (py_len (ent_to_idx model)) in
      if negb (Nat.eqb n k) then raise (ValueError LABEL_ROWS) else ret labels
  end.

(** [create_tensorboard_visualizations(model, loc, labels, write_metadata,
    export_tsv_embeddings)] *)
Definition create_tensorboard_visualizations (model : Model) (loc : string)
    (labels : Labels) (write_metadata export_tsv_embeddings : bool) : IO unit :=
  let* there := os_path_exists loc in
  (if negb there then os_mkdir loc else ret tt) ;;
  let* fitted := lift (truth (is_fitted model)) in
  if negb fitted then raise (ValueError NOT_FITTED) else
  let* labels := resolve_labels model labels in
  (if write_metadata then write_metadata_tsv loc labels else ret tt) ;;
  (if export_tsv_embeddings then
     let tsv_filename := "embeddings_projector.tsv" in
     let* embeddings := lift (getitem_0 (trained_model_params model)) in
     np_savetxt rt (os_path_join loc tsv_filename) embeddings TAB
   else ret tt) ;;
  let checkpoint_path := os_path_join loc "graph_embedding.ckpt" in
  let* embeddings := lift (getitem_0 (trained_model_params model)) in
  tf_save_projector rt embeddings checkpoint_path loc.

(** [create_tensorboard_projector_files(model, path, labels,
    write_metadata)] *)
Definition create_tensorboard_projector_files (model : Model) (path : string)
    (labels : Labels) (write_metadata : bool) : IO unit :=
  let* fitted := lift (truth (is_fitted model)) in
  if negb fitted then raise (ValueError NOT_FITTED) else
  let* labels := resolve_labels model labels in
  let loc := os_path_dirname path in
  (if write_metadata then write_metadata_tsv loc labels else ret tt) ;;
  let* embeddings := lift (getitem_0 (trained_model_params model)) in
  np_savetxt rt path embeddings TAB.

End Functions.

(** ** The contract of the model methods

    What [save_model] and [restore_model] need from the methods of a
    model's class for a saved model to come back. *)

Definition saved_keys : list string :=
  ["class_name"; "hyperparams"; "is_fitted"; "ent_to_idx"; "rel_to_idx"].

(** The model stores its parameters next to the fields [save_model] has
    put in the record and leaves those alone. *)
Definition keeps_saved_fields (mm : ModelsModule) (m : Model) : Prop :=
  forall obj k, k ∈ saved_keys ->
    dict_get (get_embedding_model_params mm m obj) k = dict_get obj k.

(** [restore_model_params] reads back the parameters that
    [get_embedding_model_params] stored, and sets nothing else. *)
Definition params_roundtrip (mm : ModelsModule) (m : Model) : Prop :=
  forall m1 obj,
    restore_model_params mm m1 (PDict (get_embedding_model_params mm m obj))
    = Ok (mkModel (cls m1) (all_params m1) (is_fitted m1) (ent_to_idx m1)
            (rel_to_idx m1) (trained_model_params m)).

(** The hyperparameters of the model match the constructor of its class:
    the constructor accepts them and records them in [all_params]. *)
Definition constructor_accepts (mm : ModelsModule) (m : Model) : Prop :=
  exists m0, construct mm (cls m) (all_params m) = Ok m0
             /\ cls m0 = cls m /\ all_params m0 = all_params m.

(** The path [save_model] writes to. *)
Definition model_file (stamp : string) (model_name_path : option string) : string :=
  match model_name_path with
  | None => DEFAULT_MODEL_NAMES stamp
  | Some p => p
  end.

(** The file [restore_model] reads: the path given, or the last of the
    default models found in the working directory. *)
Definition chosen_model_file (fs : FS) (model_name_path : option string)
    : option string :=
  match model_name_path with
  | Some p => Some p
  | None => last (matching_entries fs)
  end.

(** [path] can be opened for writing in [fs]. *)
Definition writable (fs : FS) (path : string) : Prop :=
  parent_check fs path = Ok tt /\ fs !! path <> Some Dir.

(** ** Sample instances *)

(** Modelled from the spec: the methods of the model classes, which are
    defined in [ampligraph/latent_features/models.py] and not in this
    module.  The spec calls the trained parameters model-specific and
    opaque, supplied by the model itself, and asks only that the
    hyperparameters match the constructor of the named class.  Here the
    constructor records its keyword arguments and starts unfitted, the
    parameters are kept under the key [model_params], and predictions are
    a function of the model's attributes and the input. *)
Definition kv_models : ModelsModule := {|
  construct c kwargs := Ok (mkModel c kwargs (PBool false) (PDict []) (PDict []) (PList []));
  get_embedding_model_params m obj := dict_set obj "model_params" (trained_model_params m);
  restore_model_params m obj :=
    match getitem_str obj "model_params" with
    | Ok p => Ok (mkModel (cls m) (all_params m) (is_fitted m) (ent_to_idx m)
                    (rel_to_idx m) p)
    | Err e => Err e
    end;
  predict m X :=
    match truth (is_fitted m) with
    | Ok true => Ok (PList [trained_model_params m; ent_to_idx m; rel_to_idx m; X])
    | Ok false => Err (ValueError "Model has not been fitted.")
    | Err e => Err e
    end
|}.

(** A runtime in which [str] of a non-string is a placeholder, and numpy
    and TensorFlow leave files that record what was written. *)
Definition plain_runtime : Runtime := {|
  py_str _ := "<object>";
  np_savetxt fname X delimiter := open_write fname (Rendered "savetxt" X);
  tf_save_projector X checkpoint_path loc :=
    open_write checkpoint_path (Rendered "checkpoint" X) ;;
    open_write (os_path_join loc "projector_config.pbtxt") (Rendered "projector" X)
|}.

(** The model of the docstring example: four entities, one relation. *)
Definition example_model (fitted : bool) : Model := {|
  cls := ComplEx;
  all_params := [("k", PInt 2); ("seed", PInt 555); ("epochs", PInt 20)];
  is_fitted := PBool fitted;
  ent_to_idx := PDict [("a", PInt 0); ("b", PInt 1); ("c", PInt 2); ("d", PInt 3)];
  rel_to_idx := PDict [("y", PInt 0)];
  trained_model_params :=
    PList [ PArray (mkArray [4; 2] [0.5; 1; 0.25; 2; 0; 1; 1.5; 3]%float);
            PArray (mkArray [1; 2] [1; 0.5]%float) ]
|}.

Definition example_stamp : string := "2019_04_01-12_00_00".

(** A data frame with a single column of labels, and what [to_csv] writes
    for it. *)
Definition single_column_frame : DataFrame := mkFrame ["label"] [["a"]; ["b"]].
Definition single_column_text : string := "label" ++ LF ++ "a" ++ LF ++ "b" ++ LF.

(** A working directory that holds one file, an empty dictionary
    pickled. *)
Definition empty_record_fs : FS := {["empty.pkl" := File (Pickled (PDict []))]}.

(** Too few labels for the four entities of the example. *)
Definition two_labels : Labels := LVal (PList [PStr "a"; PStr "b"]).

(** ** Lines of text, and the content the specification expects *)

(** The lines of a text: the pieces that end in a line feed, and what
    follows the last line feed when that is not empty. *)
Fixpoint text_lines (s : string) : list string :=
  match s with
  | EmptyString => []
  | String c rest =>
      if Ascii.eqb c "010"%char then EmptyString :: text_lines rest
      else
        match text_lines rest with
        | [] => [String c EmptyString]
        | line :: more => String c line :: more
        end
  end.

(** The content the specification gives [metadata.tsv] for a data frame:
    the records of the rows, with the header record before them only when
    there is more than one column. *)
Definition spec_frame_text (df : DataFrame) : string :=
  (if Nat.ltb 1 (length (columns df)) then csv_record (columns df) else "")
  ++ String.concat "" (map csv_record (rows df)).

(** ** Reading a model file, as a function of what is on the disk *)

(** The record [save_model] writes for [m] (lines 62-70). *)
Definition saved_record (mm : ModelsModule) (m : Model) : Dict :=
  get_embedding_model_params mm m
    [ ("class_name", PStr (class_name (cls m)));
      ("hyperparams", PDict (all_params m));
      ("is_fitted", is_fitted m);
      ("ent_to_idx", ent_to_idx m);
      ("rel_to_idx", rel_to_idx m) ].

(** Lines 130-141 of [restore_model]: the model built from the object
    that was read, [None] for a falsy object. *)
Definition rebuild (mm : ModelsModule) (restored_obj : PyVal) : result (option Model) :=
  match truth restored_obj with
  | Err e => Err e
  | Ok false => Ok None
  | Ok true =>
    match getitem_str restored_obj "class_name" with
    | Err e => Err e
    | Ok name =>
    match models_getattr name with
    | Err e => Err e
    | Ok class_ =>
    match getitem_str restored_obj "hyperparams" with
    | Err e => Err e
    | Ok hyperparams =>
    match call_with_kwargs mm class_ hyperparams with
    | Err e => Err e
    | Ok model =>
    match getitem_str restored_obj "is_fitted" with
    | Err e => Err e
    | Ok fitted =>
    match getitem_str restored_obj "ent_to_idx" with
    | Err e => Err e
    | Ok ents =>
    match getitem_str restored_obj "rel_to_idx" with
    | Err e => Err e
    | Ok rels =>
    match restore_model_params mm
            (mkModel (cls model) (all_params model) fitted ents rels
               (trained_model_params model)) restored_obj with
    | Err e => Err e
    | Ok restored => Ok (Some restored)
    end end end end end end end end
  end.

(** Lines 127-141: open the file, unpickle, rebuild. *)
Definition read_model (mm : ModelsModule) (path : string) (fs : FS)
    : result (option Model) :=
  match fs !! path with
  | Some (File content) =>
      match pickle_load content with
      | Ok restored_obj => rebuild mm restored_obj
      | Err e => Err e
      end
  | Some Dir => Err (IsADirectoryError path)
  | None => Err (FileNotFoundError path)
  end.

(** What [os.path.dirname] returns: nothing, separators only, or a path
    that does not end in a separator. *)
Definition dirname_shaped (d : string) : Prop :=
  d = "" \/ (rstrip_sep d = "" /\ d <> "") \/ (rstrip_sep d = d /\ d <> "").

(** A record [to_csv] writes as it is: no field needs quotes, and it is
    not the single empty field. *)
Definition plain_record (fields : list string) : Prop :=
  Forall (fun f => csv_needs_quotes f = false) fields /\ fields <> [EmptyString].

(** ** More sample data *)

(** The entities and the entity embeddings of [example_model]. *)
Definition example_entities : Dict :=
  [("a", PInt 0); ("b", PInt 1); ("c", PInt 2); ("d", PInt 3)].
Definition example_embeddings : PyVal :=
  PArray (mkArray [4; 2] [0.5; 1; 0.25; 2; 0; 1; 1.5; 3]%float).
Definition example_labels_text : string :=
  "a" ++ LF ++ "b" ++ LF ++ "c" ++ LF ++ "d" ++ LF.

(** A model marked as fitted that has no parameter arrays. *)
Definition hollow_model : Model :=
  mkModel TransE [] (PBool true) (PDict example_entities) (PDict []) (PList []).

(** A working directory with one sub-directory, [out]. *)
Definition out_fs : FS := {["out" := Dir]}.

(** The empty working directory after the example model has been saved
    as [helloworld.pkl]. *)
Definition saved_example_fs : FS :=
  <["helloworld.pkl" :=
      File (Pickled (PDict (saved_record kv_models (example_model true))))]> ∅.

(** ** Auxiliary lemmas *)

Ltac in_saved_keys :=
  unfold saved_keys;
  repeat first [ apply list_elem_of_here | apply list_elem_of_further ].

Lemma dict_get_set_eq (d : Dict) (k : string) (v : PyVal) :
  dict_get (dict_set d k v) k = Some v.
Proof.
  induction d as [|[k' w] d IH]; simpl.
  - by rewrite String.eqb_refl.
  - destruct (String.eqb k' k) eqn:E; simpl; rewrite E; [done | exact IH].
Qed.

Lemma dict_get_set_ne (d : Dict) (k k' : string) (v : PyVal) :
  k <> k' -> dict_get (dict_set d k v) k' = dict_get d k'.
Proof.
  intros Hne. induction d as [|[k0 w] d IH]; simpl.
  - destruct (String.eqb k k') eqn:E; [|done].
    apply String.eqb_eq in E. congruence.
  - destruct (String.eqb k0 k) eqn:E; simpl.
    + apply String.eqb_eq in E. subst k0.
      destruct (String.eqb k k') eqn:E'; [|done].
      apply String.eqb_eq in E'. congruence.
    + by rewrite IH.
Qed.

Lemma open_write_ok (fs : FS) (path : string) (content : FileData) :
  writable fs path ->
  open_write path content fs = (Ok tt, <[path := File content]> fs).
Proof.
  intros [Hp Hd]. unfold open_write. rewrite Hp.
  destruct (fs !! path) as [[|c]|]; congruence.
Qed.

Lemma open_write_err (fs : FS) (path : string) (content : FileData) (r : result unit) (fs' : FS) :
  open_write path content fs = (r, fs') ->
  (r = Ok tt /\ fs' = <[path := File content]> fs) \/
  (fs' = fs /\ exists p, r = Err (FileNotFoundError p) \/ r = Err (NotADirectoryError p)
                          \/ r = Err (IsADirectoryError p)).
Proof.
  unfold open_write, parent_check.
  destruct (String.eqb path "").
  { intros [= <- <-]. right. split; [done|]. eauto. }
  destruct (String.eqb (os_path_dirname path) "").
  - destruct (fs !! path) as [[|c]|]; intros [= <- <-]; eauto 8.
  - destruct (fs !! os_path_dirname path) as [[|c']|].
    + destruct (fs !! path) as [[|c]|]; intros [= <- <-]; eauto 8.
    + intros [= <- <-]. eauto 8.
    + intros [= <- <-]. eauto 8.
Qed.

Lemma models_getattr_class_name (c : ModelClass) :
  models_getattr (PStr (class_name c)) = Ok c.
Proof. by destruct c. Qed.

Lemma kv_models_keeps (m : Model) : keeps_saved_fields kv_models m.
Proof.
  intros obj k Hk. simpl. apply dict_get_set_ne. intros <-.
  unfold saved_keys in Hk.
  repeat (apply elem_of_cons in Hk as [Hk|Hk]; [discriminate Hk|]).
  by apply elem_of_nil in Hk.
Qed.

Lemma kv_models_roundtrip (m : Model) : params_roundtrip kv_models m.
Proof. intros m1 obj. simpl. by rewrite dict_get_set_eq. Qed.

Lemma kv_models_accepts (m : Model) : constructor_accepts kv_models m.
Proof. eexists. simpl. done. Qed.

(** ** [save_model] and [restore_model] *)

Section Persistence.

Variable mm : ModelsModule.

Lemma save_model_writes (stamp : string) (m : Model) (target : option string) (fs : FS) :
  writable fs (model_file stamp target) ->
  save_model mm stamp m target fs
  = (Ok tt,
     <[model_file stamp target :=
         File (Pickled (PDict (get_embedding_model_params mm m
           [ ("class_name", PStr (class_name (cls m)));
             ("hyperparams", PDict (all_params m));
             ("is_fitted", is_fitted m);
             ("ent_to_idx", ent_to_idx m);
             ("rel_to_idx", rel_to_idx m) ])))]> fs).
Proof.
  intros Hw. unfold save_model.
  destruct target as [p|]; simpl in *; by apply open_write_ok.
Qed.

(** C6.  The record [save_model] persists is the dictionary with exactly
    the entries [class_name] (a string, the name of the model's class),
    [hyperparams] (a dictionary, the model's [all_params]), [is_fitted],
    [ent_to_idx] and [rel_to_idx] (the model's attributes as they are),
    to which the model itself has added its trained parameters through
    [get_embedding_model_params]. *)
Theorem save_model_persisted_record (stamp : string) (m : Model)
    (target : option string) (fs : FS) :
  writable fs (model_file stamp target) ->
  exists (obj : Dict) (fs' : FS),
    save_model mm stamp m target fs = (Ok tt, fs')
    /\ fs' !! model_file stamp target
       = Some (File (Pickled (PDict (get_embedding_model_params mm m obj))))
    /\ map fst obj = saved_keys
    /\ dict_get obj "class_name" = Some (PStr (class_name (cls m)))
    /\ dict_get obj "hyperparams" = Some (PDict (all_params m))
    /\ dict_get obj "is_fitted" = Some (is_fitted m)
    /\ dict_get obj "ent_to_idx" = Some (ent_to_idx m)
    /\ dict_get obj "rel_to_idx" = Some (rel_to_idx m).
Proof.
  intros Hw. do 2 eexists. split; [by apply save_model_writes|].
  split; [by rewrite lookup_insert_eq|]. by repeat split.
Qed.

(** C10.  [save_model] has no fitted-model precondition.  Whatever the
    model's [is_fitted] is, the call succeeds when the file can be opened
    for writing, the record in the file carries the flag as it is (the
    model's own method leaving the saved fields alone), and on no input is
    the error of an unfitted model, or any [ValueError], raised. *)
Theorem save_model_any_fit_state (stamp : string) (m : Model)
    (target : option string) (fs : FS) :
  (writable fs (model_file stamp target) ->
   keeps_saved_fields mm m ->
   exists (d : Dict) (fs' : FS),
     save_model mm stamp m target fs = (Ok tt, fs')
     /\ fs' !! model_file stamp target = Some (File (Pickled (PDict d)))
     /\ dict_get d "is_fitted" = Some (is_fitted m))
  /\ (forall msg, fst (save_model mm stamp m target fs) <> Err (ValueError msg)).
Proof.
  split.
  - intros Hw Hk. do 2 eexists. split; [by apply save_model_writes|].
    split; [by rewrite lookup_insert_eq|].
    rewrite Hk; [done|]. in_saved_keys.
  - intros msg. unfold save_model.
    destruct (open_write _ _ fs) as [r fs'] eqn:E.
    apply open_write_err in E as [[-> _] | [_ [p [-> | [-> | ->]]]]]; simpl; congruence.
Qed.

(** C1.  Saving a model and restoring it from the same path gives the
    model back: the same class, hyperparameters, [is_fitted], [ent_to_idx],
    [rel_to_idx] and trained parameters, hence the same predictions on
    every input.  It holds for any model, fitted or not, whose class
    methods keep their contract, when the file can be written. *)
Theorem save_restore_roundtrip (stamp path : string) (m : Model) (fs : FS) :
  writable fs path ->
  constructor_accepts mm m ->
  keeps_saved_fields mm m ->
  params_roundtrip mm m ->
  exists fs',
    save_model mm stamp m (Some path) fs = (Ok tt, fs')
    /\ restore_model mm (Some path) fs' = (Ok (Some m), fs')
    /\ forall m' X, restore_model mm (Some path) fs' = (Ok (Some m'), fs') ->
         cls m' = cls m /\ all_params m' = all_params m
         /\ is_fitted m' = is_fitted m /\ ent_to_idx m' = ent_to_idx m
         /\ rel_to_idx m' = rel_to_idx m
         /\ trained_model_params m' = trained_model_params m
         /\ predict mm m' X = predict mm m X.
Proof.
  intros Hw (m0 & Hc & Hcls & Hall) Hk Hr.
  eexists. split; [by apply (save_model_writes stamp m (Some path))|].
  simpl model_file.
  set (base := [ ("class_name", _); _; _; _; _ ]).
  remember (get_embedding_model_params mm m base) as d eqn:Ed.
  assert (Hget : forall k, k ∈ saved_keys -> dict_get d k = dict_get base k)
    by (intros k Hin; subst d; by apply Hk).
  assert (Hrestore :
    restore_model mm (Some path) (<[path := File (Pickled (PDict d))]> fs)
    = (Ok (Some m), <[path := File (Pickled (PDict d))]> fs)).
  { unfold restore_model, bind, ret, lift, open_read.
    rewrite lookup_insert_eq. simpl pickle_load. cbv iota beta.
    assert (Hne : truth (PDict d) = Ok true).
    { assert ("class_name" ∈ saved_keys) as Hin by in_saved_keys.
      specialize (Hget "class_name" Hin). clear Ed.
      destruct d as [|x d']; [discriminate Hget | done]. }
    rewrite Hne. cbv iota beta. unfold getitem_str.
    rewrite !Hget by in_saved_keys.
    simpl dict_get. cbv iota beta. rewrite models_getattr_class_name.
    cbv iota beta. unfold call_with_kwargs. rewrite Hc. cbv iota beta.
    subst d. rewrite Hr.
    cbn [cls all_params is_fitted ent_to_idx rel_to_idx trained_model_params].
    rewrite Hcls, Hall. by destruct m. }
  split; [exact Hrestore|].
  intros m' X Hm'. rewrite Hrestore in Hm'.
  assert (m' = m) as -> by congruence. by repeat split.
Qed.

Lemma nth_last (names : list string) (path : string) :
  last names = Some path ->
  Nat.eqb (length names) 0 = false
  /\ nth (length names - 1) names "" = path.
Proof.
  intros Hlast. split.
  - by destruct names.
  - rewrite last_lookup in Hlast. rewrite nth_lookup.
    replace (length names - 1) with (pred (length names)) by lia.
    by rewrite Hlast.
Qed.

(** C9.  When the object read from the model file is falsy, for example
    an empty dictionary, [restore_model] returns [None]: no model, no
    error, and the file system as it was.  The model file is the one
    named, or the default model the function picks. *)
Theorem restore_model_falsy_object (target : option string) (path : string)
    (v : PyVal) (fs : FS) :
  chosen_model_file fs target = Some path ->
  fs !! path = Some (File (Pickled v)) ->
  truth v = Ok false ->
  restore_model mm target fs = (Ok None, fs).
Proof.
  intros Hpath Hf Hv.
  unfold restore_model.
  destruct target as [p|]; simpl in Hpath.
  - injection Hpath as ->. unfold bind at 1, ret at 1.
    unfold bind, ret, lift, open_read. rewrite Hf. simpl pickle_load.
    cbv iota beta. by rewrite Hv.
  - apply nth_last in Hpath as [Hlen Hnth].
    unfold bind at 1. unfold bind at 1, glob_default_models at 1.
    rewrite Hlen. unfold ret at 1. rewrite Hnth.
    unfold bind, ret, lift, open_read. rewrite Hf. simpl pickle_load.
    cbv iota beta. by rewrite Hv.
Qed.

Lemma glob_default_models_none (fs : FS) :
  (forall name, is_Some (fs !! name) -> is_default_model_name name = false) ->
  glob_default_models fs = (Ok [], fs).
Proof.
  intros Hnone. unfold glob_default_models, matching_entries. f_equal. f_equal.
  apply elem_of_nil_inv. intros name Hin.
  apply list_elem_of_filter in Hin as [Hmatch Hin].
  apply list_elem_of_In, in_map_iff in Hin as [[k node] [<- Hin]].
  apply list_elem_of_In, elem_of_map_to_list in Hin. simpl in Hmatch.
  rewrite Hnone in Hmatch; [discriminate|]. by exists node.
Qed.

(** C5.  Called without a path when no entry of the working directory
    matches [*.model.pkl], [restore_model] raises at once, with the message
    that asks for [model_name_path]; it returns no model, tries nothing
    else, and leaves the file system as it was. *)
Theorem restore_model_no_default_model (fs : FS) :
  (forall name, is_Some (fs !! name) -> is_default_model_name name = false) ->
  restore_model mm None fs = (Err (Exception_ NO_DEFAULT_MODEL), fs).
Proof.
  intros Hnone. unfold restore_model, bind.
  by rewrite (glob_default_models_none fs Hnone).
Qed.

End Persistence.

(** ** The export functions *)

Section Exporting.

Variable rt : Runtime.

Lemma resolve_labels_mismatch (m : Model) (labels : Labels) (fs : FS)
    (entities : Dict) (n : nat) :
  labels <> LVal PNone ->
  labels_len labels = Ok n ->
  ent_to_idx m = PDict entities ->
  n <> length entities ->
  resolve_labels m labels fs = (Err (ValueError LABEL_ROWS), fs).
Proof.
  intros Hnone Hn He Hne.
  assert (Hgo : bind (lift (labels_len labels)) (fun n =>
            bind (lift (py_len (ent_to_idx m))) (fun k =>
              if negb (Nat.eqb n k) then raise (ValueError LABEL_ROWS)
              else ret labels)) fs = (Err (ValueError LABEL_ROWS), fs)).
  { unfold bind, lift. rewrite Hn, He. simpl.
    destruct (Nat.eqb n (length entities)) eqn:E; [|done].
    apply Nat.eqb_eq in E. contradiction. }
  unfold resolve_labels.
  destruct labels as [v|df]; [destruct v|]; try exact Hgo. contradiction.
Qed.

(** What [create_tensorboard_visualizations] does with a model that is
    not fitted: it fails, and the only thing it may have done before is
    to create the directory [loc]. *)
Lemma visualizations_unfitted (m : Model) (loc : string) (labels : Labels)
    (write_metadata export_tsv_embeddings : bool) (fs : FS) :
  truth (is_fitted m) = Ok false ->
  exists e fs',
    create_tensorboard_visualizations rt m loc labels write_metadata
      export_tsv_embeddings fs = (Err e, fs')
    /\ (fs' = fs
        \/ (fs !! loc = None /\ fs' = <[loc := Dir]> fs /\ e = ValueError NOT_FITTED)).
Proof.
  intros Hf. unfold create_tensorboard_visualizations, bind, os_path_exists, lift.
  destruct (negb (String.eqb loc "") && bool_decide (is_Some (fs !! loc))) eqn:Ex;
    cbn [negb].
  - unfold ret. rewrite Hf. cbn [negb]. unfold raise. eauto.
  - unfold os_mkdir. destruct (parent_check fs loc) as [[]|e] eqn:Ep; [|eauto].
    destruct (fs !! loc) as [node|] eqn:El.
    + eauto.
    + rewrite Hf. cbn [negb]. unfold raise. eauto 8.
Qed.

(** C2.  With a fitted model, labels given explicitly whose length is not
    the number of entries of the model's [ent_to_idx] make both export
    functions fail.  The error is the [ValueError] with the message on
    label rows; [create_tensorboard_visualizations] can fail before it
    with the error of [os.mkdir], when it has to create [loc] and
    cannot. *)
Theorem label_count_mismatch_fails (m : Model) (loc path : string)
    (labels : Labels) (write_metadata export_tsv_embeddings : bool)
    (fs : FS) (entities : Dict) (n : nat) :
  truth (is_fitted m) = Ok true ->
  labels <> LVal PNone ->
  labels_len labels = Ok n ->
  ent_to_idx m = PDict entities ->
  n <> length entities ->
  create_tensorboard_projector_files rt m path labels write_metadata fs
  = (Err (ValueError LABEL_ROWS), fs)
  /\ LABEL_ROWS = "Label data rows must equal number of embeddings."
  /\ exists e fs',
       create_tensorboard_visualizations rt m loc labels write_metadata
         export_tsv_embeddings fs = (Err e, fs')
       /\ (e = ValueError LABEL_ROWS \/ os_mkdir loc fs = (Err e, fs)).
Proof.
  intros Hf Hnone Hn He Hne. split; [|split; [done|]].
  - unfold create_tensorboard_projector_files, bind at 1, lift at 1.
    rewrite Hf. cbn [negb]. unfold bind at 1.
    by rewrite (resolve_labels_mismatch m labels fs entities n).
  - unfold create_tensorboard_visualizations, bind at 1, os_path_exists.
    destruct (negb (String.eqb loc "") && bool_decide (is_Some (fs !! loc))) eqn:Ex;
      cbn [negb]; unfold bind at 1.
    + unfold ret at 1. unfold bind at 1, lift at 1. rewrite Hf. cbn [negb].
      unfold bind at 1.
      rewrite (resolve_labels_mismatch m labels fs entities n) by done. eauto.
    + destruct (os_mkdir loc fs) as [[[]|e] fs1] eqn:Em.
      * unfold bind at 1, lift at 1. rewrite Hf. cbn [negb]. unfold bind at 1.
        rewrite (resolve_labels_mismatch m labels fs1 entities n) by done. eauto.
      * exists e, fs1. split; [done|]. right.
        unfold os_mkdir in *. destruct (parent_check fs loc) as [[]|e0].
        -- destruct (fs !! loc); by inversion Em.
        -- by inversion Em.
Qed.

(** C3.  On a model whose [is_fitted] is false both export functions
    fail, and no file is written: [create_tensorboard_projector_files]
    leaves the file system as it was, and after
    [create_tensorboard_visualizations] the files are those that were
    there before, with their content. *)
Theorem unfitted_model_export_fails (m : Model) (loc path : string)
    (labels : Labels) (write_metadata export_tsv_embeddings : bool) (fs : FS) :
  is_fitted m = PBool false ->
  create_tensorboard_projector_files rt m path labels write_metadata fs
  = (Err (ValueError NOT_FITTED), fs)
  /\ exists e fs',
       create_tensorboard_visualizations rt m loc labels write_metadata
         export_tsv_embeddings fs = (Err e, fs')
       /\ forall p content,
            fs' !! p = Some (File content) <-> fs !! p = Some (File content).
Proof.
  intros Hf. split.
  - unfold create_tensorboard_projector_files, bind, lift. by rewrite Hf.
  - destruct (visualizations_unfitted m loc labels write_metadata
                export_tsv_embeddings fs) as (e & fs' & Hrun & Hfs).
    { by rewrite Hf. }
    exists e, fs'. split; [exact Hrun|]. intros p content.
    destruct Hfs as [->|(Hnew & -> & _)]; [done|].
    destruct (decide (loc = p)) as [->|Hp].
    + rewrite lookup_insert_eq, Hnew. split; discriminate.
    + by rewrite lookup_insert_ne.
Qed.

Lemma string_app_assoc (a b c : string) : (a ++ b) ++ c = a ++ b ++ c.
Proof.
  induction a as [|x a IH]; [done|].
  change (String x ((a ++ b) ++ c) = String x (a ++ b ++ c)). by rewrite IH.
Qed.

Lemma string_app_nil_r (a : string) : a ++ "" = a.
Proof.
  induction a as [|x a IH]; [done|].
  change (String x (a ++ "") = String x a). by rewrite IH.
Qed.

Lemma concat_cons (x : string) (xs : list string) :
  String.concat "" (x :: xs) = x ++ String.concat "" xs.
Proof.
  destruct xs as [|y xs]; [|done].
  cbn [String.concat]. by rewrite string_app_nil_r.
Qed.

Lemma write_rows_fold (labels : list string) (written : string) :
  fold_left (fun written row => written ++ format_s rt row ++ LF)
    (map PStr labels) written
  = written ++ String.concat "" (map (fun l => l ++ LF) labels).
Proof.
  revert written. induction labels as [|l labels IH]; intros written.
  - cbn [map fold_left String.concat]. by rewrite string_app_nil_r.
  - cbn [map fold_left format_s]. rewrite IH, concat_cons.
    by rewrite !string_app_assoc.
Qed.

Lemma text_lines_app (l rest : string) :
  contains_char "010"%char l = false ->
  text_lines (l ++ LF ++ rest) = l :: text_lines rest.
Proof.
  induction l as [|c l IH]; [done|].
  intros Hc. cbn [contains_char] in Hc. apply orb_false_elim in Hc as [Hc Hl].
  change (text_lines (String c (l ++ LF ++ rest)) = String c l :: text_lines rest).
  cbn [text_lines]. by rewrite Hc, (IH Hl).
Qed.

Lemma text_lines_labels (labels : list string) :
  (forall l, l ∈ labels -> contains_char "010"%char l = false) ->
  text_lines (String.concat "" (map (fun l => l ++ LF) labels)) = labels.
Proof.
  induction labels as [|l labels IH]; intros Hplain; [done|].
  cbn [map]. rewrite concat_cons, string_app_assoc, text_lines_app, IH; [done | |].
  - intros l' Hl'. apply Hplain. by apply list_elem_of_further.
  - apply Hplain. apply list_elem_of_here.
Qed.

(** C8.  [write_metadata_tsv] on data that is neither a list nor a data
    frame returns normally and writes nothing. *)
Theorem write_metadata_tsv_other_type (loc : string) (v : PyVal) (fs : FS) :
  (forall rows, v <> PList rows) ->
  write_metadata_tsv rt loc (LVal v) fs = (Ok tt, fs).
Proof.
  intros Hv. unfold write_metadata_tsv.
  destruct v; try reflexivity. by destruct (Hv items).
Qed.

End Exporting.

(** ** Evaluations *)

Lemma writable_in_cwd (path : string) :
  path <> "" -> os_path_dirname path = "" -> writable ∅ path.
Proof.
  intros Hne Hd. split; [|by rewrite lookup_empty].
  unfold parent_check. destruct (String.eqb path "") eqn:E.
  - apply String.eqb_eq in E. contradiction.
  - by rewrite Hd.
Qed.

(** *** The path and text helpers on small inputs *)

Example os_path_dirname_examples :
  os_path_dirname "path/my_embeddings.tsv" = "path"
  /\ os_path_dirname "embeddings.tsv" = ""
  /\ os_path_dirname "/embeddings.tsv" = "/"
  /\ os_path_dirname "a//b" = "a"
  /\ os_path_dirname "a/b/" = "a/b".
Proof. by repeat split. Qed.

Example os_path_join_examples :
  os_path_join "tensorboard_files" "metadata.tsv" = "tensorboard_files/metadata.tsv"
  /\ os_path_join "" "metadata.tsv" = "metadata.tsv"
  /\ os_path_join "a/" "metadata.tsv" = "a/metadata.tsv".
Proof. by repeat split. Qed.

Example is_default_model_name_examples :
  is_default_model_name "2019_04_01-12_00_00.model.pkl" = true
  /\ is_default_model_name ".model.pkl" = false
  /\ is_default_model_name "models/a.model.pkl" = false
  /\ is_default_model_name "helloworld.pkl" = false.
Proof. by repeat split. Qed.

Example csv_record_examples :
  csv_record ["a"; "b c"] = "a" ++ TAB ++ "b c" ++ LF
  /\ csv_record [] = LF
  /\ csv_record [EmptyString] = String QUOTE (String QUOTE LF)
  /\ csv_record ["a" ++ TAB ++ "b"]
     = String QUOTE ("a" ++ TAB ++ "b" ++ String QUOTE LF).
Proof. by repeat split. Qed.

Example text_lines_examples :
  text_lines ("a" ++ LF ++ "b" ++ LF) = ["a"; "b"]
  /\ text_lines ("a" ++ LF ++ "b") = ["a"; "b"]
  /\ text_lines "" = [].
Proof. by repeat split. Qed.

(** A complete run of [create_tensorboard_projector_files] on the fitted
    example: the labels are the entities in the order of [ent_to_idx]. *)
Example projector_files_run :
  create_tensorboard_projector_files plain_runtime (example_model true)
    "out/embeddings.tsv" (LVal PNone) true {["out" := Dir]}
  = (Ok tt,
     <["out/embeddings.tsv" :=
         File (Rendered "savetxt"
                 (PArray (mkArray [4; 2] [0.5; 1; 0.25; 2; 0; 1; 1.5; 3]%float)))]>
       (<["out/metadata.tsv" :=
            File (Text ("a" ++ LF ++ "b" ++ LF ++ "c" ++ LF ++ "d" ++ LF))]>
          {["out" := Dir]})).
Proof. reflexivity. Qed.

(** Saving under the default name and restoring without a name, in an
    empty working directory. *)
Example default_name_run :
  fst (restore_model kv_models None
         (snd (save_model kv_models example_stamp (example_model true) None ∅)))
  = Ok (Some (example_model true)).
Proof. reflexivity. Qed.

(** C4.  A data frame with a single column is written with its header row,
    although the docstring of [write_metadata_tsv] and the format of the file
    tie the header to frames with several columns: what is written differs
    from the content the specification gives, which has no header here. *)
Lemma metadata_single_column_has_header :
  write_metadata_tsv plain_runtime "" (LFrame single_column_frame) ∅
  = (Ok tt, {["metadata.tsv" := File (Text single_column_text)]})
  /\ length (columns single_column_frame) = 1
  /\ spec_frame_text single_column_frame = "a" ++ LF ++ "b" ++ LF
  /\ single_column_text <> spec_frame_text single_column_frame.
Proof. repeat split. vm_compute. discriminate. Qed.

(** C7.  [create_tensorboard_visualizations] on a model that is not
    fitted, with a [loc] that does not exist yet: the call raises the
    error of the unfitted model, and the directory has been created.  The
    sibling [create_tensorboard_projector_files] checks first and leaves
    the file system as it was. *)
Theorem visualizations_unfitted_creates_directory :
  create_tensorboard_visualizations plain_runtime (example_model false)
    "tensorboard_files" (LVal PNone) true true ∅
  = (Err (ValueError NOT_FITTED), {["tensorboard_files" := Dir]})
  /\ ({["tensorboard_files" := Dir]} : FS) <> ∅
  /\ create_tensorboard_projector_files plain_runtime (example_model false)
       "tensorboard_files/embeddings.tsv" (LVal PNone) true ∅
     = (Err (ValueError NOT_FITTED), ∅).
Proof.
  repeat split. intros H.
  assert (Hl : ({["tensorboard_files" := Dir]} : FS) !! "tensorboard_files" = None)
    by (rewrite H; apply lookup_empty).
  by rewrite lookup_singleton_eq in Hl.
Qed.

(** *** Instances of the theorems on the docstring example *)

Lemma save_restore_roundtrip_example :
  writable ∅ "helloworld.pkl"
  /\ constructor_accepts kv_models (example_model true)
  /\ keeps_saved_fields kv_models (example_model true)
  /\ params_roundtrip kv_models (example_model true)
  /\ exists fs',
       save_model kv_models example_stamp (example_model true)
         (Some "helloworld.pkl") ∅ = (Ok tt, fs')
       /\ restore_model kv_models (Some "helloworld.pkl") fs'
          = (Ok (Some (example_model true)), fs').
Proof.
  assert (Hw : writable ∅ "helloworld.pkl") by (by apply writable_in_cwd).
  split; [exact Hw|].
  split; [apply kv_models_accepts|].
  split; [apply kv_models_keeps|].
  split; [apply kv_models_roundtrip|].
  destruct (save_restore_roundtrip kv_models example_stamp "helloworld.pkl"
              (example_model true) ∅ Hw (kv_models_accepts _)
              (kv_models_keeps _) (kv_models_roundtrip _))
    as (fs' & Hsave & Hrestore & _).
  exists fs'. split; [exact Hsave | exact Hrestore].
Defined.

Lemma save_model_persisted_record_example :
  writable ∅ (model_file example_stamp None)
  /\ exists (obj : Dict) (fs' : FS),
       save_model kv_models example_stamp (example_model true) None ∅ = (Ok tt, fs')
       /\ fs' !! "2019_04_01-12_00_00.model.pkl"
          = Some (File (Pickled (PDict
              (dict_set obj "model_params"
                 (trained_model_params (example_model true))))))
       /\ map fst obj = saved_keys.
Proof.
  assert (Hw : writable ∅ (model_file example_stamp None))
    by (by apply writable_in_cwd).
  split; [exact Hw|].
  destruct (save_model_persisted_record kv_models example_stamp
              (example_model true) None ∅ Hw)
    as (obj & fs' & Hsave & Hfile & Hkeys & _).
  exists obj, fs'. split; [exact Hsave|]. split; [exact Hfile | exact Hkeys].
Defined.

Lemma save_model_any_fit_state_example :
  writable ∅ (model_file example_stamp (Some "unfitted.pkl"))
  /\ keeps_saved_fields kv_models (example_model false)
  /\ exists (d : Dict) (fs' : FS),
       save_model kv_models example_stamp (example_model false)
         (Some "unfitted.pkl") ∅ = (Ok tt, fs')
       /\ fs' !! "unfitted.pkl" = Some (File (Pickled (PDict d)))
       /\ dict_get d "is_fitted" = Some (PBool false).
Proof.
  assert (Hw : writable ∅ (model_file example_stamp (Some "unfitted.pkl")))
    by (by apply writable_in_cwd).
  split; [exact Hw|]. split; [apply kv_models_keeps|].
  exact (proj1 (save_model_any_fit_state kv_models example_stamp
                  (example_model false) (Some "unfitted.pkl") ∅)
           Hw (kv_models_keeps _)).
Defined.

Lemma restore_model_falsy_object_example :
  chosen_model_file empty_record_fs (Some "empty.pkl") = Some "empty.pkl"
  /\ empty_record_fs !! "empty.pkl" = Some (File (Pickled (PDict [])))
  /\ truth (PDict []) = Ok false
  /\ restore_model kv_models (Some "empty.pkl") empty_record_fs
     = (Ok None, empty_record_fs).
Proof.
  assert (Hf : empty_record_fs !! "empty.pkl" = Some (File (Pickled (PDict []))))
    by apply lookup_singleton_eq.
  split; [reflexivity|]. split; [exact Hf|]. split; [reflexivity|].
  exact (restore_model_falsy_object kv_models (Some "empty.pkl") "empty.pkl"
           (PDict []) empty_record_fs eq_refl Hf eq_refl).
Defined.

Lemma restore_model_no_default_model_example :
  (forall name, is_Some (empty_record_fs !! name) ->
     is_default_model_name name = false)
  /\ restore_model kv_models None empty_record_fs
     = (Err (Exception_ NO_DEFAULT_MODEL), empty_record_fs).
Proof.
  assert (Hnone : forall name, is_Some (empty_record_fs !! name) ->
                    is_default_model_name name = false).
  { intros name [node Hnode]. unfold empty_record_fs in Hnode.
    apply lookup_singleton_Some in Hnode as [<- _]. reflexivity. }
  split; [exact Hnone|].
  exact (restore_model_no_default_model kv_models empty_record_fs Hnone).
Defined.

Lemma label_count_mismatch_fails_example :
  truth (is_fitted (example_model true)) = Ok true
  /\ two_labels <> LVal PNone
  /\ labels_len two_labels = Ok 2
  /\ 2 <> 4
  /\ create_tensorboard_projector_files plain_runtime (example_model true)
       "embeddings.tsv" two_labels true ∅ = (Err (ValueError LABEL_ROWS), ∅)
  /\ exists e fs',
       create_tensorboard_visualizations plain_runtime (example_model true)
         "tensorboard_files" two_labels true true ∅ = (Err e, fs')
       /\ (e = ValueError LABEL_ROWS
           \/ os_mkdir "tensorboard_files" ∅ = (Err e, ∅)).
Proof.
  assert (Hl : two_labels <> LVal PNone) by discriminate.
  assert (Hn : 2 <> 4) by discriminate.
  split; [reflexivity|]. split; [exact Hl|]. split; [reflexivity|].
  split; [exact Hn|].
  destruct (label_count_mismatch_fails plain_runtime (example_model true)
              "tensorboard_files" "embeddings.tsv" two_labels true true ∅
              [("a", PInt 0); ("b", PInt 1); ("c", PInt 2); ("d", PInt 3)] 2
              eq_refl Hl eq_refl eq_refl Hn)
    as (Hproj & _ & Hvis).
  split; [exact Hproj | exact Hvis].
Defined.

Lemma unfitted_model_export_fails_example :
  is_fitted (example_model false) = PBool false
  /\ create_tensorboard_projector_files plain_runtime (example_model false)
       "embeddings.tsv" (LVal PNone) true ∅ = (Err (ValueError NOT_FITTED), ∅)
  /\ exists e fs',
       create_tensorboard_visualizations plain_runtime (example_model false)
         "tensorboard_files" (LVal PNone) true true ∅ = (Err e, fs')
       /\ forall p content,
            fs' !! p = Some (File content) <-> (∅ : FS) !! p = Some (File content).
Proof.
  split; [reflexivity|].
  exact (unfitted_model_export_fails plain_runtime (example_model false)
           "tensorboard_files" "embeddings.tsv" (LVal PNone) true true ∅ eq_refl).
Defined.

Lemma write_metadata_tsv_other_type_example :
  (forall rows, PStr "labels.txt" <> PList rows)
  /\ write_metadata_tsv plain_runtime "tensorboard_files"
       (LVal (PStr "labels.txt")) ∅ = (Ok tt, ∅).
Proof.
  assert (Hv : forall rows, PStr "labels.txt" <> PList rows) by discriminate.
  split; [exact Hv|].
  exact (write_metadata_tsv_other_type plain_runtime "tensorboard_files"
           (PStr "labels.txt") ∅ Hv).
Defined.

(** ** Further properties of [restore_model] and [save_model] *)

Section PersistenceLaws.

Variable mm : ModelsModule.

Lemma restore_model_named (path : string) (fs : FS) :
  restore_model mm (Some path) fs = (read_model mm path fs, fs).
Proof.
  unfold restore_model, read_model, rebuild, bind, ret, lift, open_read.
  destruct (fs !! path) as [[|content]|]; try reflexivity.
  destruct (pickle_load content) as [v|e]; [|reflexivity].
  destruct (truth v) as [[]|e]; try reflexivity.
  destruct (getitem_str v "class_name") as [name|e]; [|reflexivity].
  destruct (models_getattr name) as [c|e]; [|reflexivity].
  destruct (getitem_str v "hyperparams") as [hp|e]; [|reflexivity].
  destruct (call_with_kwargs mm c hp) as [m0|e]; [|reflexivity].
  destruct (getitem_str v "is_fitted") as [f|e]; [|reflexivity].
  destruct (getitem_str v "ent_to_idx") as [en|e]; [|reflexivity].
  destruct (getitem_str v "rel_to_idx") as [re|e]; [|reflexivity].
  cbn [cls all_params is_fitted ent_to_idx rel_to_idx trained_model_params].
  destruct (restore_model_params mm _ v) as [m1|e]; reflexivity.
Qed.

Lemma restore_model_default (fs : FS) :
  restore_model mm None fs
  = (match last (matching_entries fs) with
     | None => Err (Exception_ NO_DEFAULT_MODEL)
     | Some path => read_model mm path fs
     end, fs).
Proof.
  destruct (last (matching_entries fs)) as [path|] eqn:Hlast.
  - rewrite <- (restore_model_named path fs).
    apply nth_last in Hlast as [Hlen Hnth].
    unfold restore_model.
    unfold bind at 1. unfold bind at 1, glob_default_models at 1.
    rewrite Hlen. unfold ret at 1. rewrite Hnth.
    unfold bind at 5. unfold ret at 5. reflexivity.
  - apply last_None in Hlast.
    unfold restore_model, bind, glob_default_models. by rewrite Hlast.
Qed.

Lemma getitem_str_Ok (v : PyVal) (key : string) (x : PyVal) :
  getitem_str v key = Ok x ->
  exists d, v = PDict d /\ dict_get d key = Some x.
Proof.
  destruct v; try discriminate. simpl.
  destruct (dict_get entries key) as [y|] eqn:E; [|discriminate].
  intros [= <-]. eauto.
Qed.

Lemma models_getattr_Ok (name : PyVal) (c : ModelClass) :
  models_getattr name = Ok c -> name = PStr (class_name c).
Proof.
  destruct name; try discriminate. unfold models_getattr.
  repeat match goal with
         | |- context [String.eqb s ?k] =>
             let E := fresh "E" in
             destruct (String.eqb s k) eqn:E;
             [apply String.eqb_eq in E; subst s; by intros [= <-] | clear E]
         end.
  discriminate.
Qed.

(** X2.  [restore_model] returns [None] exactly when the file named holds a
    pickled object that is falsy: it never returns [None] for a file that
    is missing or unreadable, or for a record it could not rebuild. *)
Theorem restore_model_none_iff (path : string) (fs : FS) :
  restore_model mm (Some path) fs = (Ok None, fs)
  <-> exists v, fs !! path = Some (File (Pickled v)) /\ truth v = Ok false.
Proof.
  rewrite restore_model_named. unfold read_model. split.
  - intros [= H].
    destruct (fs !! path) as [[|[s|v|fmt pl]]|]; try discriminate H.
    { destruct s; discriminate H. }
    exists v. split; [done|]. simpl in H. unfold rebuild in H.
    destruct (truth v) as [[]|e]; [|done|discriminate H].
    repeat match type of H with
           | match ?t with _ => _ end = _ => destruct t; try discriminate H
           end.
  - intros (v & -> & Hv). simpl. unfold rebuild. by rewrite Hv.
Qed.

(** X3.  A model returned by [restore_model] always comes from a complete
    record: the file holds a dictionary with the five saved keys, its
    class name is a string and its hyperparameters a dictionary, and the
    model handed to [restore_model_params] carries the [is_fitted],
    [ent_to_idx] and [rel_to_idx] found in the record. *)
Theorem restore_model_some_inv (path : string) (fs fs' : FS) (m : Model) :
  restore_model mm (Some path) fs = (Ok (Some m), fs') ->
  exists (d hp : Dict) (s : string) (before : Model),
    fs !! path = Some (File (Pickled (PDict d)))
    /\ dict_get d "class_name" = Some (PStr s)
    /\ dict_get d "hyperparams" = Some (PDict hp)
    /\ dict_get d "is_fitted" = Some (is_fitted before)
    /\ dict_get d "ent_to_idx" = Some (ent_to_idx before)
    /\ dict_get d "rel_to_idx" = Some (rel_to_idx before)
    /\ restore_model_params mm before (PDict d) = Ok m.
Proof.
  rewrite restore_model_named. intros [= H _].
  unfold read_model in H.
  destruct (fs !! path) as [[|[s|v|fmt pl]]|]; try discriminate H.
  { destruct s; discriminate H. }
  simpl in H. unfold rebuild in H.
  destruct (truth v) as [[]|e]; try discriminate H.
  destruct (getitem_str v "class_name") as [name|e] eqn:Hname; [|discriminate H].
  destruct (models_getattr name) as [c|e] eqn:Hc; [|discriminate H].
  destruct (getitem_str v "hyperparams") as [kw|e] eqn:Hkw; [|discriminate H].
  destruct (call_with_kwargs mm c kw) as [m0|e] eqn:Hm0; [|discriminate H].
  destruct (getitem_str v "is_fitted") as [f|e] eqn:Hf; [|discriminate H].
  destruct (getitem_str v "ent_to_idx") as [en|e] eqn:Hen; [|discriminate H].
  destruct (getitem_str v "rel_to_idx") as [re|e] eqn:Hre; [|discriminate H].
  destruct (restore_model_params mm _ v) as [m1|e] eqn:Hm1; [|discriminate H].
  injection H as ->.
  apply getitem_str_Ok in Hname as (d & -> & Hname).
  apply models_getattr_Ok in Hc as ->.
  simpl in Hkw, Hf, Hen, Hre.
  destruct (dict_get d "hyperparams") as [kw'|] eqn:Hkw'; [|discriminate Hkw].
  injection Hkw as ->.
  destruct (dict_get d "is_fitted") as [f'|] eqn:Hf'; [|discriminate Hf].
  injection Hf as ->.
  destruct (dict_get d "ent_to_idx") as [en'|] eqn:Hen'; [|discriminate Hen].
  injection Hen as ->.
  destruct (dict_get d "rel_to_idx") as [re'|] eqn:Hre'; [|discriminate Hre].
  injection Hre as ->.
  unfold call_with_kwargs in Hm0. destruct kw; try discriminate Hm0.
  exists d, entries, (class_name c),
    (mkModel (cls m0) (all_params m0) f en re (trained_model_params m0)).
  by repeat split.
Qed.

Lemma rebuild_saved_record (m : Model) :
  constructor_accepts mm m ->
  keeps_saved_fields mm m ->
  params_roundtrip mm m ->
  rebuild mm (PDict (saved_record mm m)) = Ok (Some m).
Proof.
  intros (m0 & Hc & Hcls & Hall) Hk Hr. unfold rebuild, saved_record.
  set (base := [ ("class_name", _); _; _; _; _ ]).
  assert (Hget : forall k, k ∈ saved_keys ->
            dict_get (get_embedding_model_params mm m base) k = dict_get base k)
    by (intros k Hin; by apply Hk).
  assert (Hne : truth (PDict (get_embedding_model_params mm m base)) = Ok true).
  { assert ("class_name" ∈ saved_keys) as Hin by in_saved_keys.
    specialize (Hget "class_name" Hin).
    destruct (get_embedding_model_params mm m base); [discriminate Hget | done]. }
  rewrite Hne. unfold getitem_str. rewrite !Hget by in_saved_keys.
  simpl dict_get. cbv iota beta. rewrite models_getattr_class_name.
  unfold call_with_kwargs. rewrite Hc, Hr. rewrite Hcls, Hall. by destruct m.
Qed.


Lemma writable_after_write (fs : FS) (path : string) (content : FileData) :
  writable fs path -> writable (<[path := File content]> fs) path.
Proof.
  intros [Hp Hd]. split; [|by rewrite lookup_insert_eq].
  unfold parent_check in *.
  destruct (String.eqb path ""); [done|].
  destruct (String.eqb (os_path_dirname path) ""); [done|].
  destruct (fs !! os_path_dirname path) as [[|c]|] eqn:E; try discriminate Hp.
  rewrite lookup_insert_ne; [by rewrite E|].
  intros Heq. rewrite <- Heq in E. contradiction.
Qed.

(** X6.  Saving to a path that already holds a model replaces it: the file
    system is the one a single save of the second model gives, and
    [restore_model] returns the second model. *)
Theorem save_model_overwrites (stamp1 stamp2 path : string) (m1 m2 : Model) (fs : FS) :
  writable fs path ->
  constructor_accepts mm m2 ->
  keeps_saved_fields mm m2 ->
  params_roundtrip mm m2 ->
  exists fs1 fs2,
    save_model mm stamp1 m1 (Some path) fs = (Ok tt, fs1)
    /\ save_model mm stamp2 m2 (Some path) fs1 = (Ok tt, fs2)
    /\ save_model mm stamp2 m2 (Some path) fs = (Ok tt, fs2)
    /\ restore_model mm (Some path) fs2 = (Ok (Some m2), fs2).
Proof.
  intros Hw Hc Hk Hr.
  pose proof (save_model_writes mm stamp1 m1 (Some path) fs Hw) as H1.
  pose proof (save_model_writes mm stamp2 m2 (Some path) fs Hw) as H2.
  simpl model_file in *.
  eexists. eexists. split; [exact H1|].
  split; [|split; [exact H2|]].
  - rewrite (save_model_writes mm stamp2 m2 (Some path)); simpl model_file.
    + by rewrite insert_insert_eq.
    + by apply writable_after_write.
  - rewrite restore_model_named. f_equal. unfold read_model.
    rewrite lookup_insert_eq. simpl pickle_load.
    by apply rebuild_saved_record.
Qed.

Lemma map_fmap {A B} (f : A -> B) (l : list A) : map f l = f <$> l.
Proof. induction l as [|x l IH]; [done|]. simpl. by rewrite IH. Qed.

Lemma NoDup_all_equal (l : list string) (p : string) :
  NoDup l -> (forall x, x ∈ l <-> x = p) -> l = [p].
Proof.
  intros Hnd Hall. destruct l as [|a l].
  - assert (Hp : p ∈ []) by (by apply Hall). by apply elem_of_nil in Hp.
  - assert (a = p) as -> by (apply Hall, list_elem_of_here).
    apply NoDup_cons in Hnd as [Hnotin _]. f_equal.
    apply elem_of_nil_inv. intros x Hx.
    assert (x = p) as -> by (apply Hall; by apply list_elem_of_further).
    contradiction.
Qed.

Lemma matching_entries_new (fs : FS) (p : string) (node : Node) :
  (forall name, is_Some (fs !! name) -> is_default_model_name name = false) ->
  is_default_model_name p = true ->
  matching_entries (<[p := node]> fs) = [p].
Proof.
  intros Hnone Hp. apply NoDup_all_equal.
  - unfold matching_entries. apply NoDup_filter.
    rewrite map_fmap. apply NoDup_fst_map_to_list.
  - intros name. unfold matching_entries. rewrite list_elem_of_filter. split.
    + intros [Hmatch Hin].
      apply list_elem_of_In, in_map_iff in Hin as [[k x] [<- Hin]].
      apply list_elem_of_In, elem_of_map_to_list in Hin. simpl in *.
      destruct (decide (p = k)) as [->|Hne]; [done|].
      rewrite lookup_insert_ne in Hin by done.
      rewrite Hnone in Hmatch; [discriminate|by exists x].
    + intros ->. split; [exact Hp|].
      apply list_elem_of_In, in_map_iff. exists (p, node). split; [done|].
      apply list_elem_of_In, elem_of_map_to_list, lookup_insert_eq.
Qed.

Lemma contains_char_app (c : ascii) (a b : string) :
  contains_char c (a ++ b) = contains_char c a || contains_char c b.
Proof.
  induction a as [|x a IH]; [done|].
  change (contains_char c (String x (a ++ b))
          = contains_char c (String x a) || contains_char c b).
  cbn [contains_char]. by rewrite IH, orb_assoc.
Qed.

Lemma ends_with_app (suffix a : string) : ends_with suffix (a ++ suffix) = true.
Proof.
  induction a as [|x a IH].
  - destruct suffix; simpl; [done|]. by rewrite Ascii.eqb_refl, String.eqb_refl.
  - change (ends_with suffix (String x (a ++ suffix)) = true).
    cbn [ends_with]. by rewrite IH, orb_true_r.
Qed.

(** The name [save_model] makes up when none is given is one that the
    pattern of [restore_model] finds, for a time stamp that is not empty,
    has no separator and does not start with a dot. *)
Lemma default_name_matches (stamp : string) :
  stamp <> "" ->
  contains_char SEP stamp = false ->
  starts_with_char "."%char stamp = false ->
  is_default_model_name (DEFAULT_MODEL_NAMES stamp) = true.
Proof.
  intros Hne Hsep Hdot. unfold is_default_model_name, DEFAULT_MODEL_NAMES.
  rewrite contains_char_app, Hsep, ends_with_app.
  destruct stamp as [|c stamp]; [done|]. simpl in *. by rewrite Hdot.
Qed.

(** X7.  Saving without a name and restoring without a name give the model
    back, when no other default model lies in the working directory. *)
Theorem default_name_roundtrip (stamp : string) (m : Model) (fs : FS) :
  stamp <> "" ->
  contains_char SEP stamp = false ->
  starts_with_char "."%char stamp = false ->
  (forall name, is_Some (fs !! name) -> is_default_model_name name = false) ->
  constructor_accepts mm m ->
  keeps_saved_fields mm m ->
  params_roundtrip mm m ->
  exists fs',
    save_model mm stamp m None fs = (Ok tt, fs')
    /\ fs' !! DEFAULT_MODEL_NAMES stamp
       = Some (File (Pickled (PDict (saved_record mm m))))
    /\ restore_model mm None fs' = (Ok (Some m), fs').
Proof.
  intros Hne Hsep Hdot Hnone Hc Hk Hr.
  pose proof (default_name_matches stamp Hne Hsep Hdot) as Hmatch.
  assert (Hw : writable fs (model_file stamp None)).
  { simpl. split.
    - unfold parent_check.
      destruct (String.eqb (DEFAULT_MODEL_NAMES stamp) "") eqn:E.
      { apply String.eqb_eq in E. by rewrite E in Hmatch. }
      assert (Hd : os_path_dirname (DEFAULT_MODEL_NAMES stamp) = "").
      { unfold is_default_model_name in Hmatch.
        apply andb_prop in Hmatch as [Hmatch _].
        apply andb_prop in Hmatch as [Hmatch _].
        apply negb_true_iff in Hmatch.
        unfold os_path_dirname.
        assert (Hu : upto_last_sep (DEFAULT_MODEL_NAMES stamp) = "").
        { destruct (DEFAULT_MODEL_NAMES stamp) as [|c rest]; [done|].
          cbn [contains_char] in Hmatch.
          apply orb_false_elim in Hmatch as [Hc' Hrest].
          cbn [upto_last_sep]. by rewrite Hrest, Hc'. }
        by rewrite Hu. }
      by rewrite Hd.
    - intros Hdir. rewrite Hnone in Hmatch; [discriminate|]. by rewrite Hdir. }
  eexists. split; [by apply save_model_writes|]. simpl model_file.
  split; [by rewrite lookup_insert_eq|].
  rewrite restore_model_default.
  rewrite (matching_entries_new fs _ _ Hnone Hmatch). simpl last.
  f_equal. unfold read_model. rewrite lookup_insert_eq. simpl pickle_load.
  by apply rebuild_saved_record.
Qed.

(** X8.  A model saved under a name that does not end in [.model.pkl] is not
    found by [restore_model] called without a name: in a working
    directory with no default model the call still raises, although the
    model file is there. *)
Theorem named_model_not_a_default (stamp path : string) (m : Model) (fs : FS) :
  writable fs path ->
  is_default_model_name path = false ->
  (forall name, is_Some (fs !! name) -> is_default_model_name name = false) ->
  exists fs',
    save_model mm stamp m (Some path) fs = (Ok tt, fs')
    /\ fs' !! path = Some (File (Pickled (PDict (saved_record mm m))))
    /\ restore_model mm None fs' = (Err (Exception_ NO_DEFAULT_MODEL), fs').
Proof.
  intros Hw Hpath Hnone.
  eexists. split; [by apply (save_model_writes mm stamp m (Some path))|].
  simpl model_file. split; [by rewrite lookup_insert_eq|].
  unfold restore_model, bind. rewrite glob_default_models_none; [done|].
  intros name [node Hnode].
  destruct (decide (path = name)) as [<-|Hne]; [done|].
  rewrite lookup_insert_ne in Hnode by done. apply Hnone. by exists node.
Qed.

End PersistenceLaws.

(** ** Where [metadata.tsv] goes *)

Lemma upto_last_sep_no_sep (name : string) :
  contains_char SEP name = false -> upto_last_sep name = "".
Proof.
  destruct name as [|c rest]; [done|]. cbn [contains_char upto_last_sep].
  intros H. apply orb_false_elim in H as [Hc Hrest]. by rewrite Hrest, Hc.
Qed.

Lemma upto_last_sep_app (a name : string) :
  contains_char SEP name = false ->
  upto_last_sep (a ++ name) = upto_last_sep a.
Proof.
  intros Hname. induction a as [|c a IH].
  - by apply upto_last_sep_no_sep.
  - change (upto_last_sep (String c (a ++ name)) = upto_last_sep (String c a)).
    cbn [upto_last_sep]. by rewrite contains_char_app, Hname, orb_false_r, IH.
Qed.

Lemma upto_last_sep_closed (a : string) :
  upto_last_sep (a ++ String SEP "") = a ++ String SEP "".
Proof.
  induction a as [|c a IH]; [done|].
  change (upto_last_sep (String c (a ++ String SEP ""))
          = String c (a ++ String SEP "")).
  cbn [upto_last_sep]. rewrite contains_char_app. cbn [contains_char].
  rewrite Ascii.eqb_refl, orb_true_l, orb_true_r. by rewrite IH.
Qed.

Lemma rstrip_sep_closed (a : string) :
  rstrip_sep (a ++ String SEP "") = rstrip_sep a.
Proof.
  induction a as [|c a IH]; [done|].
  change (rstrip_sep (String c (a ++ String SEP "")) = rstrip_sep (String c a)).
  cbn [rstrip_sep]. by rewrite IH.
Qed.

Lemma rstrip_sep_idem (s : string) : rstrip_sep (rstrip_sep s) = rstrip_sep s.
Proof.
  induction s as [|c s IH]; [done|]. cbn [rstrip_sep].
  destruct (rstrip_sep s) as [|x r] eqn:E.
  - destruct (Ascii.eqb c SEP) eqn:Ec; [done|]. cbn [rstrip_sep]. by rewrite Ec.
  - cbn [rstrip_sep]. cbn [rstrip_sep] in IH. by rewrite IH.
Qed.

Lemma rstrip_sep_length (s : string) :
  String.length (rstrip_sep s) <= String.length s.
Proof.
  induction s as [|c s IH]; [done|]. cbn [rstrip_sep].
  destruct (rstrip_sep s) as [|x r].
  - destruct (Ascii.eqb c SEP); simpl; lia.
  - simpl in *. lia.
Qed.

Lemma string_length_app (a b : string) :
  String.length (a ++ b) = String.length a + String.length b.
Proof.
  induction a as [|c a IH]; [done|].
  change (S (String.length (a ++ b)) = S (String.length a) + String.length b).
  by rewrite IH.
Qed.

Lemma ends_with_sep_split (d : string) :
  ends_with (String SEP "") d = true -> exists a, d = a ++ String SEP "".
Proof.
  induction d as [|c d IH]; [discriminate|]. cbn [ends_with].
  intros H. apply orb_prop in H as [H|H].
  - apply String.eqb_eq in H. exists "". by rewrite H.
  - destruct (IH H) as [a ->]. by exists (String c a).
Qed.

Lemma ends_with_sep_all (d : string) :
  rstrip_sep d = "" -> d <> "" -> ends_with (String SEP "") d = true.
Proof.
  induction d as [|c d IH]; [done|]. cbn [rstrip_sep ends_with]. intros H _.
  destruct (rstrip_sep d) as [|x r] eqn:E; [|discriminate H].
  destruct (Ascii.eqb c SEP) eqn:Ec; [|discriminate H].
  apply Ascii.eqb_eq in Ec. subst c.
  destruct d as [|c' d']; [done|].
  rewrite IH; [apply orb_true_r | done | done].
Qed.

Lemma ends_with_sep_stripped (d : string) :
  rstrip_sep d = d -> ends_with (String SEP "") d = false.
Proof.
  intros Hd. destruct (ends_with (String SEP "") d) eqn:E; [|done].
  apply ends_with_sep_split in E as [a ->].
  rewrite rstrip_sep_closed in Hd.
  pose proof (rstrip_sep_length a) as Hlen.
  rewrite Hd, string_length_app in Hlen. simpl in Hlen. lia.
Qed.

Lemma os_path_dirname_shaped (path : string) : dirname_shaped (os_path_dirname path).
Proof.
  unfold dirname_shaped, os_path_dirname.
  destruct (rstrip_sep (upto_last_sep path)) as [|x r] eqn:E.
  - destruct (upto_last_sep path) as [|c h]; [by left|]. right. left. done.
  - right. right. split; [|done]. by rewrite <- E, rstrip_sep_idem.
Qed.

Lemma os_path_dirname_join (d name : string) :
  dirname_shaped d ->
  contains_char SEP name = false ->
  os_path_dirname (os_path_join d name) = d.
Proof.
  intros Hd Hname.
  assert (Hstart : starts_with_char SEP name = false).
  { destruct name as [|c rest]; [done|]. cbn [contains_char] in Hname.
    by apply orb_false_elim in Hname as [Hc _]. }
  unfold os_path_join. rewrite Hstart.
  destruct Hd as [-> | [[Hall Hne] | [Hstrip Hne]]].
  - simpl. unfold os_path_dirname. by rewrite upto_last_sep_no_sep.
  - pose proof (ends_with_sep_all d Hall Hne) as Hends. rewrite Hends, orb_true_r.
    destruct (ends_with_sep_split d Hends) as [a Ha].
    unfold os_path_dirname. rewrite upto_last_sep_app by done.
    rewrite Ha, upto_last_sep_closed, <- Ha. by rewrite Hall.
  - rewrite (ends_with_sep_stripped d Hstrip), orb_false_r.
    destruct (String.eqb d "") eqn:E; [apply String.eqb_eq in E; contradiction|].
    unfold os_path_dirname. rewrite <- string_app_assoc.
    rewrite upto_last_sep_app by done.
    rewrite upto_last_sep_closed, rstrip_sep_closed, Hstrip.
    destruct d; [contradiction | done].
Qed.


Lemma os_path_join_nonempty (d name : string) :
  name <> "" -> os_path_join d name <> "".
Proof.
  intros Hname. unfold os_path_join.
  destruct (starts_with_char SEP name); [done|].
  destruct (String.eqb d "" || ends_with (String SEP "") d).
  - destruct d; [done | discriminate].
  - destruct d; discriminate.
Qed.

Lemma parent_check_metadata (fs : FS) (path : string) :
  parent_check fs path = Ok tt ->
  parent_check fs (os_path_join (os_path_dirname path) "metadata.tsv") = Ok tt.
Proof.
  intros Hp. unfold parent_check in *.
  destruct (String.eqb path ""); [discriminate Hp|].
  destruct (String.eqb (os_path_join (os_path_dirname path) "metadata.tsv") "") eqn:E.
  { apply String.eqb_eq in E. by apply os_path_join_nonempty in E. }
  cbv zeta in *.
  rewrite (os_path_dirname_join (os_path_dirname path) "metadata.tsv")
    by (apply os_path_dirname_shaped || reflexivity).
  destruct (String.eqb (os_path_dirname path) ""); [done|].
  by destruct (fs !! os_path_dirname path) as [[|c]|].
Qed.

(** ** Further properties of the export functions *)

Section ExportLaws.

Variable rt : Runtime.

Lemma resolve_labels_default (m : Model) (entities : Dict) (fs : FS) :
  ent_to_idx m = PDict entities ->
  resolve_labels m (LVal PNone) fs
  = (Ok (LVal (PList (map PStr (map fst entities)))), fs).
Proof.
  intros He. unfold resolve_labels, bind, lift, ret. rewrite He. simpl.
  by rewrite map_map.
Qed.

Lemma resolve_labels_match (m : Model) (labels : Labels) (entities : Dict) (fs : FS) :
  labels <> LVal PNone ->
  labels_len labels = Ok (length entities) ->
  ent_to_idx m = PDict entities ->
  resolve_labels m labels fs = (Ok labels, fs).
Proof.
  intros Hnone Hn He.
  assert (Hgo : bind (lift (labels_len labels)) (fun n =>
            bind (lift (py_len (ent_to_idx m))) (fun k =>
              if negb (Nat.eqb n k) then raise (ValueError LABEL_ROWS)
              else ret labels)) fs = (Ok labels, fs)).
  { unfold bind, lift. rewrite Hn, He. simpl. by rewrite Nat.eqb_refl. }
  unfold resolve_labels.
  destruct labels as [v|df]; [destruct v|]; try exact Hgo. contradiction.
Qed.

Lemma write_metadata_tsv_list (loc : string) (labels : list string) (fs : FS) :
  writable fs (os_path_join loc "metadata.tsv") ->
  write_metadata_tsv rt loc (LVal (PList (map PStr labels))) fs
  = (Ok tt,
     <[os_path_join loc "metadata.tsv" :=
         File (Text (String.concat "" (map (fun l => l ++ LF) labels)))]> fs).
Proof.
  intros Hw. unfold write_metadata_tsv. rewrite write_rows_fold.
  change ("" ++ ?s) with s. by apply open_write_ok.
Qed.




Section Projector.

Variables (m : Model) (path : string) (entities : Dict) (emb : PyVal) (fs : FS).

Hypothesis fitted : truth (is_fitted m) = Ok true.
Hypothesis ents : ent_to_idx m = PDict entities.
Hypothesis params : getitem_0 (trained_model_params m) = Ok emb.
Hypothesis dir_exists : parent_check fs path = Ok tt.
Hypothesis meta_free :
  fs !! os_path_join (os_path_dirname path) "metadata.tsv" <> Some Dir.

Lemma metadata_writable :
  writable fs (os_path_join (os_path_dirname path) "metadata.tsv").
Proof using dir_exists meta_free. split; [by apply parent_check_metadata | done]. Qed.

(** X11.  Without labels, [create_tensorboard_projector_files] writes the keys
    of [ent_to_idx] to [metadata.tsv], one per line in the order of the
    dictionary, next to the embeddings file, and then hands the first
    parameter array to [np.savetxt]. *)
Theorem projector_files_default_labels :
  create_tensorboard_projector_files rt m path (LVal PNone) true fs
  = np_savetxt rt path emb TAB
      (<[os_path_join (os_path_dirname path) "metadata.tsv" :=
           File (Text (String.concat "" (map (fun k => k ++ LF) (map fst entities))))]>
         fs).
Proof using fitted ents params dir_exists meta_free.
  unfold create_tensorboard_projector_files, bind at 1, lift at 1.
  rewrite fitted. cbn [negb]. unfold bind at 1.
  rewrite (resolve_labels_default m entities fs ents).
  unfold bind at 1.
  rewrite (write_metadata_tsv_list _ _ fs metadata_writable).
  unfold bind, lift. by rewrite params.
Qed.

(** X12.  Labels given as a list of strings, or as a data frame, with as many
    rows as there are entities are the ones written to [metadata.tsv]. *)
Theorem projector_files_given_labels :
  (forall labels : list string,
     length labels = length entities ->
     create_tensorboard_projector_files rt m path
       (LVal (PList (map PStr labels))) true fs
     = np_savetxt rt path emb TAB
         (<[os_path_join (os_path_dirname path) "metadata.tsv" :=
              File (Text (String.concat "" (map (fun l => l ++ LF) labels)))]> fs))
  /\ (forall df : DataFrame,
       length (rows df) = length entities ->
       create_tensorboard_projector_files rt m path (LFrame df) true fs
       = np_savetxt rt path emb TAB
           (<[os_path_join (os_path_dirname path) "metadata.tsv" :=
                File (Text (to_csv_text df))]> fs)).
Proof using fitted ents params dir_exists meta_free.
  split.
  - intros labels Hlen.
    unfold create_tensorboard_projector_files, bind at 1, lift at 1.
    rewrite fitted. cbn [negb]. unfold bind at 1.
    rewrite (resolve_labels_match m _ entities fs); [|done| |done].
    2:{ simpl. by rewrite length_map, Hlen. }
    unfold bind at 1.
    rewrite (write_metadata_tsv_list _ _ fs metadata_writable).
    unfold bind, lift. by rewrite params.
  - intros df Hlen.
    unfold create_tensorboard_projector_files, bind at 1, lift at 1.
    rewrite fitted. cbn [negb]. unfold bind at 1.
    rewrite (resolve_labels_match m _ entities fs); [|done| |done].
    2:{ simpl. by rewrite Hlen. }
    unfold bind at 1. unfold write_metadata_tsv, to_csv.
    rewrite (open_write_ok fs _ _ metadata_writable).
    unfold bind, lift. by rewrite params.
Qed.

(** X13.  Labels that are neither a list nor a data frame, such as a string or
    a dictionary of the right length, pass the length check but are never
    written: [np.savetxt] runs on the file system as it was, whatever
    [write_metadata] says. *)
Theorem projector_files_other_labels (v : PyVal) (write_metadata : bool) :
  v <> PNone ->
  (forall items, v <> PList items) ->
  py_len v = Ok (length entities) ->
  create_tensorboard_projector_files rt m path (LVal v) write_metadata fs
  = np_savetxt rt path emb TAB fs.
Proof using fitted ents params.
  intros Hnone Hlist Hlen.
  unfold create_tensorboard_projector_files, bind at 1, lift at 1.
  rewrite fitted. cbn [negb]. unfold bind at 1.
  rewrite (resolve_labels_match m (LVal v) entities fs); [|congruence|done|done].
  assert (Hskip : write_metadata_tsv rt (os_path_dirname path) (LVal v) fs = (Ok tt, fs)).
  { unfold write_metadata_tsv. destruct v; try reflexivity. by destruct (Hlist items). }
  unfold bind at 1. destruct write_metadata.
  - rewrite Hskip. unfold bind, lift. by rewrite params.
  - unfold ret at 1. unfold bind, lift. by rewrite params.
Qed.

(** X14.  When the model has no first parameter array, the export fails only
    after [metadata.tsv] has been written: the error of the subscript is
    raised and the labels file is left behind. *)
Theorem projector_files_partial_output (e : Exn) :
  getitem_0 (trained_model_params m) = Err e ->
  create_tensorboard_projector_files rt m path (LVal PNone) true fs
  = (Err e,
     <[os_path_join (os_path_dirname path) "metadata.tsv" :=
         File (Text (String.concat "" (map (fun k => k ++ LF) (map fst entities))))]>
       fs).
Proof using fitted ents dir_exists meta_free.
  intros Hparams.
  unfold create_tensorboard_projector_files, bind at 1, lift at 1.
  rewrite fitted. cbn [negb]. unfold bind at 1.
  rewrite (resolve_labels_default m entities fs ents).
  unfold bind at 1.
  rewrite (write_metadata_tsv_list _ _ fs metadata_writable).
  unfold bind, lift. by rewrite Hparams.
Qed.

End Projector.

Lemma os_path_join_longer (loc name : string) :
  loc <> "" -> rstrip_sep loc = loc -> starts_with_char SEP name = false ->
  os_path_join loc name <> loc.
Proof.
  intros Hne Hstrip Hstart Heq. unfold os_path_join in Heq.
  rewrite Hstart, (ends_with_sep_stripped loc Hstrip), orb_false_r in Heq.
  destruct (String.eqb loc "") eqn:E; [apply String.eqb_eq in E; contradiction|].
  apply (f_equal String.length) in Heq.
  rewrite !string_length_app in Heq. simpl in Heq. lia.
Qed.

(** X15.  A complete run of [create_tensorboard_visualizations] on a fitted
    model without labels: [loc] is created when it is missing (and left
    alone when it is a directory already), the keys of [ent_to_idx] are
    written to [metadata.tsv] inside it, and then [np.savetxt] and the
    TensorFlow export run, in that order, on the first parameter array. *)
Theorem visualizations_default_run (m : Model) (loc : string)
    (entities : Dict) (emb : PyVal) (fs : FS) :
  truth (is_fitted m) = Ok true ->
  ent_to_idx m = PDict entities ->
  getitem_0 (trained_model_params m) = Ok emb ->
  loc <> "" ->
  rstrip_sep loc = loc ->
  fs !! loc = Some Dir \/ (fs !! loc = None /\ parent_check fs loc = Ok tt) ->
  fs !! os_path_join loc "metadata.tsv" <> Some Dir ->
  create_tensorboard_visualizations rt m loc (LVal PNone) true true fs
  = (np_savetxt rt (os_path_join loc "embeddings_projector.tsv") emb TAB ;;
     tf_save_projector rt emb (os_path_join loc "graph_embedding.ckpt") loc)
      (<[os_path_join loc "metadata.tsv" :=
           File (Text (String.concat "" (map (fun k => k ++ LF) (map fst entities))))]>
         (<[loc := Dir]> fs)).
Proof.
  intros Hfit Hents Hparams Hne Hstrip Hloc Hmeta.
  assert (Hnonempty : String.eqb loc "" = false).
  { destruct (String.eqb loc "") eqn:E; [apply String.eqb_eq in E; contradiction|done]. }
  assert (Hw : writable (<[loc := Dir]> fs) (os_path_join loc "metadata.tsv")).
  { split.
    - unfold parent_check.
      destruct (String.eqb (os_path_join loc "metadata.tsv") "") eqn:E.
      { apply String.eqb_eq in E. by apply os_path_join_nonempty in E. }
      rewrite os_path_dirname_join; [|right; right; done|done].
      by rewrite Hnonempty, lookup_insert_eq.
    - rewrite lookup_insert_ne; [done|].
      intros Heq. symmetry in Heq. by apply os_path_join_longer in Heq. }
  unfold create_tensorboard_visualizations.
  unfold bind at 1, os_path_exists at 1. rewrite Hnonempty. cbn [negb andb].
  assert (Hprefix :
    (if negb (bool_decide (is_Some (fs !! loc))) then os_mkdir loc else ret tt) fs
    = (Ok tt, <[loc := Dir]> fs)).
  { destruct Hloc as [Hdir | [Hnone Hparent]].
    - rewrite Hdir. rewrite bool_decide_eq_true_2 by eauto. cbn [negb].
      unfold ret. by rewrite insert_id.
    - rewrite Hnone. rewrite bool_decide_eq_false_2 by (intros [? ?]; done).
      cbn [negb]. unfold os_mkdir. by rewrite Hparent, Hnone. }
  unfold bind at 1. rewrite Hprefix.
  unfold bind at 1, lift at 1. rewrite Hfit. cbn [negb]. unfold bind at 1.
  rewrite (resolve_labels_default m entities _ Hents).
  unfold bind at 1.
  rewrite (write_metadata_tsv_list _ _ _ Hw).
  unfold bind, lift. rewrite Hparams. reflexivity.
Qed.

Lemma csv_plain_no_line_feed (field : string) :
  csv_needs_quotes field = false -> contains_char "010"%char field = false.
Proof.
  induction field as [|c field IH]; [done|]. cbn [csv_needs_quotes contains_char].
  intros H. apply orb_false_elim in H as [Hc Hrest]. rewrite (IH Hrest).
  unfold csv_special in Hc. apply orb_false_elim in Hc as [_ Hc]. by rewrite Hc.
Qed.

Lemma csv_fields_plain (fields : list string) :
  Forall (fun f => csv_needs_quotes f = false) fields ->
  map csv_field fields = fields.
Proof.
  induction 1 as [|f fields Hf _ IH]; [done|]. cbn [map].
  unfold csv_field at 1. by rewrite Hf, IH.
Qed.

Lemma concat_tab_no_line_feed (fields : list string) :
  Forall (fun f => csv_needs_quotes f = false) fields ->
  contains_char "010"%char (String.concat TAB fields) = false.
Proof.
  induction 1 as [|f fields Hf Hrest IH]; [done|].
  destruct fields as [|g fields]; [by apply csv_plain_no_line_feed|].
  change (contains_char "010"%char (f ++ TAB ++ String.concat TAB (g :: fields)) = false).
  rewrite !contains_char_app, IH, (csv_plain_no_line_feed f Hf). done.
Qed.

Lemma csv_record_plain (fields : list string) :
  plain_record fields ->
  csv_record fields = String.concat TAB fields ++ LF.
Proof.
  intros [Hplain Hblank]. unfold csv_record. rewrite (csv_fields_plain fields Hplain).
  destruct fields as [|f fields]; [done|].
  destruct (String.concat TAB (f :: fields)) as [|c body] eqn:E; [|done].
  destruct fields as [|g fields].
  - simpl in E. by subst f.
  - exfalso.
    change (f ++ TAB ++ String.concat TAB (g :: fields) = "") in E.
    apply (f_equal String.length) in E.
    rewrite !string_length_app in E. simpl in E. lia.
Qed.

(** X16.  For a data frame whose column names and cells need no quoting,
    [metadata.tsv] has one line for the header and one per row, in order,
    each the fields joined by tabs. *)
Theorem write_metadata_tsv_frame_lines (loc : string) (df : DataFrame) (fs : FS) :
  writable fs (os_path_join loc "metadata.tsv") ->
  plain_record (columns df) ->
  Forall plain_record (rows df) ->
  exists text,
    write_metadata_tsv rt loc (LFrame df) fs
    = (Ok tt, <[os_path_join loc "metadata.tsv" := File (Text text)]> fs)
    /\ text_lines text
       = String.concat TAB (columns df) :: map (String.concat TAB) (rows df).
Proof.
  intros Hw Hcols Hrows. eexists. split.
  { unfold write_metadata_tsv, to_csv. by apply open_write_ok. }
  assert (Hall : Forall plain_record (columns df :: rows df)) by (by constructor).
  assert (Htext : to_csv_text df
                  = String.concat "" (map (fun l => l ++ LF)
                      (map (String.concat TAB) (columns df :: rows df)))).
  { unfold to_csv_text. cbn [map]. rewrite concat_cons.
    rewrite (csv_record_plain _ Hcols). f_equal. f_equal.
    clear Hall Hcols. induction Hrows as [|r rs Hr _ IH]; [done|].
    cbn [map]. by rewrite (csv_record_plain r Hr), IH. }
  rewrite Htext. apply text_lines_labels.
  intros l Hl.
  change (l ∈ map (String.concat TAB) (columns df :: rows df)) in Hl.
  apply list_elem_of_In, in_map_iff in Hl as (r & <- & Hr).
  apply list_elem_of_In in Hr.
  rewrite Forall_forall in Hall. destruct (Hall r Hr) as [Hplain _].
  by apply concat_tab_no_line_feed.
Qed.

End ExportLaws.

(** *** Instances of the further properties *)

Lemma empty_record_fs_no_default (name : string) :
  is_Some (empty_record_fs !! name) -> is_default_model_name name = false.
Proof.
  intros [node Hnode]. unfold empty_record_fs in Hnode.
  by apply lookup_singleton_Some in Hnode as [<- _].
Qed.

Lemma empty_fs_no_default (name : string) :
  is_Some ((∅ : FS) !! name) -> is_default_model_name name = false.
Proof. rewrite lookup_empty. by intros [? ?]. Qed.

Lemma restore_model_some_inv_example :
  restore_model kv_models (Some "helloworld.pkl") saved_example_fs
  = (Ok (Some (example_model true)), saved_example_fs)
  /\ exists (d : Dict) (before : Model),
       saved_example_fs !! "helloworld.pkl" = Some (File (Pickled (PDict d)))
       /\ dict_get d "is_fitted" = Some (is_fitted before)
       /\ restore_model_params kv_models before (PDict d)
          = Ok (example_model true).
Proof.
  assert (H : restore_model kv_models (Some "helloworld.pkl") saved_example_fs
              = (Ok (Some (example_model true)), saved_example_fs))
    by reflexivity.
  split; [exact H|].
  destruct (restore_model_some_inv kv_models "helloworld.pkl" saved_example_fs
              saved_example_fs (example_model true) H)
    as (d & hp & s & before & Hfile & _ & _ & Hf & _ & _ & Hparams).
  exists d, before. split; [exact Hfile|]. split; [exact Hf | exact Hparams].
Defined.


Lemma save_model_overwrites_example :
  writable ∅ "helloworld.pkl"
  /\ exists fs1 fs2,
       save_model kv_models example_stamp (example_model false)
         (Some "helloworld.pkl") ∅ = (Ok tt, fs1)
       /\ save_model kv_models example_stamp (example_model true)
            (Some "helloworld.pkl") fs1 = (Ok tt, fs2)
       /\ save_model kv_models example_stamp (example_model true)
            (Some "helloworld.pkl") ∅ = (Ok tt, fs2)
       /\ restore_model kv_models (Some "helloworld.pkl") fs2
          = (Ok (Some (example_model true)), fs2).
Proof.
  assert (Hw : writable ∅ "helloworld.pkl") by (by apply writable_in_cwd).
  split; [exact Hw|].
  exact (save_model_overwrites kv_models example_stamp example_stamp
           "helloworld.pkl" (example_model false) (example_model true) ∅ Hw
           (kv_models_accepts _) (kv_models_keeps _) (kv_models_roundtrip _)).
Defined.

Lemma default_name_roundtrip_example :
  example_stamp <> ""
  /\ contains_char SEP example_stamp = false
  /\ starts_with_char "."%char example_stamp = false
  /\ (forall name, is_Some (empty_record_fs !! name) ->
        is_default_model_name name = false)
  /\ exists fs',
       save_model kv_models example_stamp (example_model true) None empty_record_fs
       = (Ok tt, fs')
       /\ fs' !! DEFAULT_MODEL_NAMES example_stamp
          = Some (File (Pickled (PDict (saved_record kv_models (example_model true)))))
       /\ restore_model kv_models None fs' = (Ok (Some (example_model true)), fs').
Proof.
  assert (Hne : example_stamp <> "") by discriminate.
  split; [exact Hne|]. split; [reflexivity|]. split; [reflexivity|].
  split; [exact empty_record_fs_no_default|].
  exact (default_name_roundtrip kv_models example_stamp (example_model true)
           empty_record_fs Hne eq_refl eq_refl empty_record_fs_no_default
           (kv_models_accepts _) (kv_models_keeps _) (kv_models_roundtrip _)).
Defined.

Lemma named_model_not_a_default_example :
  writable ∅ "helloworld.pkl"
  /\ is_default_model_name "helloworld.pkl" = false
  /\ exists fs',
       save_model kv_models example_stamp (example_model true)
         (Some "helloworld.pkl") ∅ = (Ok tt, fs')
       /\ fs' !! "helloworld.pkl"
          = Some (File (Pickled (PDict (saved_record kv_models (example_model true)))))
       /\ restore_model kv_models None fs'
          = (Err (Exception_ NO_DEFAULT_MODEL), fs').
Proof.
  assert (Hw : writable ∅ "helloworld.pkl") by (by apply writable_in_cwd).
  split; [exact Hw|]. split; [reflexivity|].
  exact (named_model_not_a_default kv_models example_stamp "helloworld.pkl"
           (example_model true) ∅ Hw eq_refl empty_fs_no_default).
Defined.


Lemma out_fs_metadata_free :
  out_fs !! os_path_join (os_path_dirname "out/embeddings.tsv") "metadata.tsv"
  <> Some Dir.
Proof. discriminate. Qed.

Lemma projector_files_default_labels_example :
  truth (is_fitted (example_model true)) = Ok true
  /\ ent_to_idx (example_model true) = PDict example_entities
  /\ getitem_0 (trained_model_params (example_model true)) = Ok example_embeddings
  /\ parent_check out_fs "out/embeddings.tsv" = Ok tt
  /\ create_tensorboard_projector_files plain_runtime (example_model true)
       "out/embeddings.tsv" (LVal PNone) true out_fs
     = np_savetxt plain_runtime "out/embeddings.tsv" example_embeddings TAB
         (<["out/metadata.tsv" := File (Text example_labels_text)]> out_fs).
Proof.
  repeat (split; [reflexivity|]).
  exact (projector_files_default_labels plain_runtime (example_model true)
           "out/embeddings.tsv" example_entities example_embeddings out_fs
           eq_refl eq_refl eq_refl eq_refl out_fs_metadata_free).
Defined.

Lemma projector_files_given_labels_example :
  truth (is_fitted (example_model true)) = Ok true
  /\ length ["w"; "x"; "y"; "z"] = length example_entities
  /\ create_tensorboard_projector_files plain_runtime (example_model true)
       "out/embeddings.tsv" (LVal (PList (map PStr ["w"; "x"; "y"; "z"]))) true out_fs
     = np_savetxt plain_runtime "out/embeddings.tsv" example_embeddings TAB
         (<["out/metadata.tsv" :=
              File (Text ("w" ++ LF ++ "x" ++ LF ++ "y" ++ LF ++ "z" ++ LF))]> out_fs).
Proof.
  split; [reflexivity|]. split; [reflexivity|].
  exact (proj1 (projector_files_given_labels plain_runtime (example_model true)
                  "out/embeddings.tsv" example_entities example_embeddings out_fs
                  eq_refl eq_refl eq_refl eq_refl out_fs_metadata_free)
           ["w"; "x"; "y"; "z"] eq_refl).
Defined.

Lemma projector_files_other_labels_example :
  PStr "abcd" <> PNone
  /\ (forall items, PStr "abcd" <> PList items)
  /\ py_len (PStr "abcd") = Ok (length example_entities)
  /\ create_tensorboard_projector_files plain_runtime (example_model true)
       "out/embeddings.tsv" (LVal (PStr "abcd")) true out_fs
     = np_savetxt plain_runtime "out/embeddings.tsv" example_embeddings TAB out_fs.
Proof.
  assert (H1 : PStr "abcd" <> PNone) by discriminate.
  assert (H2 : forall items, PStr "abcd" <> PList items) by discriminate.
  split; [exact H1|]. split; [exact H2|]. split; [reflexivity|].
  exact (projector_files_other_labels plain_runtime (example_model true)
           "out/embeddings.tsv" example_entities example_embeddings out_fs
           eq_refl eq_refl eq_refl (PStr "abcd") true H1 H2 eq_refl).
Defined.

Lemma projector_files_partial_output_example :
  truth (is_fitted hollow_model) = Ok true
  /\ getitem_0 (trained_model_params hollow_model)
     = Err (IndexError "list index out of range")
  /\ create_tensorboard_projector_files plain_runtime hollow_model
       "out/embeddings.tsv" (LVal PNone) true out_fs
     = (Err (IndexError "list index out of range"),
        <["out/metadata.tsv" := File (Text example_labels_text)]> out_fs).
Proof.
  split; [reflexivity|]. split; [reflexivity|].
  exact (projector_files_partial_output plain_runtime hollow_model
           "out/embeddings.tsv" example_entities out_fs
           eq_refl eq_refl eq_refl out_fs_metadata_free
           (IndexError "list index out of range") eq_refl).
Defined.

Lemma visualizations_default_run_example :
  "tensorboard_files" <> ""
  /\ rstrip_sep "tensorboard_files" = "tensorboard_files"
  /\ ((∅ : FS) !! "tensorboard_files" = None
      /\ parent_check ∅ "tensorboard_files" = Ok tt)
  /\ create_tensorboard_visualizations plain_runtime (example_model true)
       "tensorboard_files" (LVal PNone) true true ∅
     = (np_savetxt plain_runtime "tensorboard_files/embeddings_projector.tsv"
          example_embeddings TAB ;;
        tf_save_projector plain_runtime example_embeddings
          "tensorboard_files/graph_embedding.ckpt" "tensorboard_files")
         (<["tensorboard_files/metadata.tsv" := File (Text example_labels_text)]>
            (<["tensorboard_files" := Dir]> ∅)).
Proof.
  assert (Hne : "tensorboard_files" <> "") by discriminate.
  assert (Hloc : (∅ : FS) !! "tensorboard_files" = None
                 /\ parent_check ∅ "tensorboard_files" = Ok tt) by (by split).
  assert (Hmeta : (∅ : FS) !! os_path_join "tensorboard_files" "metadata.tsv"
                  <> Some Dir) by discriminate.
  split; [exact Hne|]. split; [reflexivity|]. split; [exact Hloc|].
  exact (visualizations_default_run plain_runtime (example_model true)
           "tensorboard_files" example_entities example_embeddings ∅
           eq_refl eq_refl eq_refl Hne eq_refl (or_intror Hloc) Hmeta).
Defined.

Lemma write_metadata_tsv_frame_lines_example :
  writable out_fs (os_path_join "out" "metadata.tsv")
  /\ plain_record (columns single_column_frame)
  /\ Forall plain_record (rows single_column_frame)
  /\ exists text,
       write_metadata_tsv plain_runtime "out" (LFrame single_column_frame) out_fs
       = (Ok tt, <[os_path_join "out" "metadata.tsv" := File (Text text)]> out_fs)
       /\ text_lines text = ["label"; "a"; "b"].
Proof.
  assert (Hw : writable out_fs (os_path_join "out" "metadata.tsv"))
    by (split; [reflexivity | discriminate]).
  assert (Hc : plain_record (columns single_column_frame))
    by (split; [by repeat constructor | discriminate]).
  assert (Hr : Forall plain_record (rows single_column_frame))
    by (repeat constructor; discriminate).
  split; [exact Hw|]. split; [exact Hc|]. split; [exact Hr|].
  exact (write_metadata_tsv_frame_lines plain_runtime "out" single_column_frame
           out_fs Hw Hc Hr).
Defined.
